(** * SKU reconciliation engine of the warehouse backend

    A shallow embedding of [backend/services/sku_mapper.py]
    ([SKUMapperService]) together with the properties its specification
    states about it.

    Python values are modelled as follows.
    - A [str] is the list of its Unicode code points ([list N]).
    - A [float] is a binary64 number ([PrimFloat.float]); Python and the
      kernel both round to nearest-even, so sums such as [0.5 + 0.2 + 0.1]
      evaluate to the very same double.
    - A [dict] with string keys is a [gmap string pyval].
    - Raising an exception is the [Raise] case of the [result] monad.
    - The character classes of [str.strip], [str.upper] and of the [re]
      escapes [\s], [\w], [\d] are fixed by Python on ASCII and are written
      out below; on the other code points they come from the interpreter's
      Unicode database, which is a parameter ([UnicodeData]) of the model.
    - The objects a SKU or a field of a record can be are [None], [bool],
      [int], [float] and [str] ([pyval]).
    - The database session is its two tables, or a connection on which
      every query raises ([Session]); [fuzzywuzzy]'s [extractOne] is a
      parameter of the service. *)

From Stdlib Require Import ZArith NArith List Bool Ascii String PrimFloat Uint63 Lia.
From stdpp Require Import base decidable option list strings gmap.
Import ListNotations.
Set Warnings "-inexact-float".

(** ** Python strings *)

Module PyStr.

(** The non-ASCII part of the interpreter's Unicode database. *)
Record UnicodeData := {
  ud_isspace : N -> bool;      (* [str.isspace], [\s] *)
  ud_isalnum : N -> bool;      (* [str.isalnum], the letters and digits of [\w] *)
  ud_isdecimal : N -> bool;    (* [str.isdecimal], [\d] *)
  ud_upper : N -> list N       (* full upper-case mapping of one character *)
}.

Definition in_range (lo hi c : N) : bool := (lo <=? c)%N && (c <=? hi)%N.

Definition is_ascii (c : N) : bool := (c <? 128)%N.

(** ASCII whitespace of a [str]: TAB, LF, VT, FF, CR, FS, GS, RS, US, SPACE. *)
Definition ascii_isspace (c : N) : bool :=
  in_range 9 13 c || in_range 28 31 c || (c =? 32)%N.

Definition is_digit (c : N) : bool := in_range 48 57 c.       (* [0-9] *)
Definition is_upper_az (c : N) : bool := in_range 65 90 c.    (* [A-Z] *)
Definition is_lower_az (c : N) : bool := in_range 97 122 c.   (* [a-z] *)

Definition ascii_isalnum (c : N) : bool :=
  is_digit c || is_upper_az c || is_lower_az c.

Definition ascii_upper (c : N) : N :=
  if is_lower_az c then (c - 32)%N else c.

Definition hyphen : N := 45.
Definition underscore : N := 95.
Definition dquote : N := 34.
Definition squote : N := 39.
Definition newline : N := 10.
Definition comma : N := 44.

(** A string literal of the source as a list of code points. *)
Definition pystr (s : string) : list N :=
  List.map N_of_ascii (list_ascii_of_string s).
Arguments pystr : simpl never.

Section WithUnicode.
Variable ud : UnicodeData.

Definition py_isspace (c : N) : bool :=
  if is_ascii c then ascii_isspace c else ud_isspace ud c.

Definition py_isalnum (c : N) : bool :=
  if is_ascii c then ascii_isalnum c else ud_isalnum ud c.

Definition py_isdecimal (c : N) : bool :=
  if is_ascii c then is_digit c else ud_isdecimal ud c.

(** [\w] of a [str] pattern: alphanumeric or underscore. *)
Definition re_word (c : N) : bool := py_isalnum c || (c =? underscore)%N.

Definition py_upper_char (c : N) : list N :=
  if is_ascii c then [ascii_upper c] else ud_upper ud c.

(** [s.upper()] *)
Definition str_upper (s : list N) : list N := flat_map py_upper_char s.

Fixpoint lstrip (p : N -> bool) (s : list N) : list N :=
  match s with
  | [] => []
  | c :: s' => if p c then lstrip p s' else s
  end.

Definition rstrip (p : N -> bool) (s : list N) : list N :=
  rev (lstrip p (rev s)).

(** [s.strip()] with [p] the set of characters removed at both ends. *)
Definition strip (p : N -> bool) (s : list N) : list N :=
  rstrip p (lstrip p s).

Definition is_quote (c : N) : bool := (c =? dquote)%N || (c =? squote)%N.

(** [re.sub(r'\s+', '-', s)]: every maximal run of whitespace becomes one
    hyphen.  [in_run] tells that the previous character was whitespace. *)
Fixpoint sub_space_runs (in_run : bool) (s : list N) : list N :=
  match s with
  | [] => []
  | c :: s' =>
      if py_isspace c
      then (if in_run then sub_space_runs true s'
            else hyphen :: sub_space_runs true s')
      else c :: sub_space_runs false s'
  end.

(** The characters kept by [re.sub(r'[^\w\-]', '', s)]. *)
Definition word_or_hyphen (c : N) : bool := re_word c || (c =? hyphen)%N.

Definition remove_special (s : list N) : list N := List.filter word_or_hyphen s.

(** [SKUMapperService._clean_sku] on a [str]. *)
Definition _clean_sku (sku : list N) : list N :=
  match sku with
  | [] => []
  | _ =>
      let cleaned := strip is_quote (strip py_isspace sku) in
      let cleaned := sub_space_runs false cleaned in
      let cleaned := remove_special cleaned in
      str_upper cleaned
  end.

End WithUnicode.

(** An excerpt of CPython's Unicode database: all whitespace, the Latin-1
    supplement, and the characters U+01F0 (small j with caron, whose upper
    case is J followed by the combining caron U+030C), U+0178 and U+039C.
    Code points outside the excerpt are handled as unassigned ones:
    in no class, without case mapping. *)
Definition excerpt_isspace (c : N) : bool :=
  (c =? 0x85)%N || (c =? 0xA0)%N || (c =? 0x1680)%N || in_range 0x2000 0x200A c
  || (c =? 0x2028)%N || (c =? 0x2029)%N || (c =? 0x202F)%N || (c =? 0x205F)%N
  || (c =? 0x3000)%N.

Definition excerpt_isalnum (c : N) : bool :=
  (c =? 0xAA)%N || (c =? 0xB2)%N || (c =? 0xB3)%N || (c =? 0xB5)%N
  || (c =? 0xB9)%N || (c =? 0xBA)%N || in_range 0xBC 0xBE c
  || in_range 0xC0 0xD6 c || in_range 0xD8 0xF6 c || in_range 0xF8 0xFF c
  || (c =? 0x178)%N || (c =? 0x1F0)%N || (c =? 0x39C)%N.

Definition excerpt_upper (c : N) : list N :=
  if (c =? 0xB5)%N then [0x39C%N]
  else if (c =? 0xDF)%N then [0x53%N; 0x53%N]
  else if in_range 0xE0 0xF6 c || in_range 0xF8 0xFE c then [(c - 32)%N]
  else if (c =? 0xFF)%N then [0x178%N]
  else if (c =? 0x1F0)%N then [0x4A%N; 0x30C%N]
  else [c].

Definition ucd_excerpt : UnicodeData := {|
  ud_isspace := excerpt_isspace;
  ud_isalnum := excerpt_isalnum;
  ud_isdecimal := fun _ => false;
  ud_upper := excerpt_upper
|}.

End PyStr.
Import PyStr.

(** ** Regular expressions

    The patterns of the service are all of the shape [^...$] and are used
    through [pattern.match], whose result is only tested for truth.  They
    are embedded as syntax trees and decided with Brzozowski derivatives. *)

Module Re.

Inductive regex :=
| Void                                   (* matches nothing *)
| Eps                                    (* the empty string *)
| Cls (p : N -> bool)                    (* one character of a class *)
| Seq (r1 r2 : regex)                    (* r1r2 *)
| Alt (r1 r2 : regex)                    (* r1|r2 *)
| Star (r : regex)                       (* r* *)
| Rep (lo hi : nat) (r : regex).         (* r{lo,hi} *)

Definition Chr (c : N) : regex := Cls (N.eqb c).

Fixpoint nullable (r : regex) : bool :=
  match r with
  | Void => false
  | Eps => true
  | Cls _ => false
  | Seq r1 r2 => nullable r1 && nullable r2
  | Alt r1 r2 => nullable r1 || nullable r2
  | Star _ => true
  | Rep lo hi r => (lo <=? hi)%nat && ((lo =? 0)%nat || nullable r)
  end.

Fixpoint deriv (c : N) (r : regex) : regex :=
  match r with
  | Void => Void
  | Eps => Void
  | Cls p => if p c then Eps else Void
  | Seq r1 r2 =>
      if nullable r1
      then Alt (Seq (deriv c r1) r2) (deriv c r2)
      else Seq (deriv c r1) r2
  | Alt r1 r2 => Alt (deriv c r1) (deriv c r2)
  | Star r1 => Seq (deriv c r1) (Star r1)
  | Rep lo hi r1 =>
      match hi with
      | O => Void
      | S hi' => Seq (deriv c r1) (Rep (pred lo) hi' r1)
      end
  end.

(** The whole of [s] is in the language of [r]. *)
Fixpoint fullmatch (r : regex) (s : list N) : bool :=
  match s with
  | [] => nullable r
  | c :: s' => fullmatch (deriv c r) s'
  end.

(** [re.match('^r$', s)] is not [None]: without the MULTILINE flag [$]
    holds at the end of [s] and also just before a final newline. *)
Definition match_to_end (r : regex) (s : list N) : bool :=
  fullmatch r s
  || match rev s with
     | c :: s' => (c =? newline)%N && fullmatch r (rev s')
     | [] => false
     end.

End Re.
Import Re.

(** ** Python values, exceptions *)

(** The values of a field of an item or of a record: [None], a [bool], an
    [int], a [float] or a [str], as they come out of a CSV cell or a JSON
    scalar.  Containers ([list], [tuple], [dict], [set]) and [bytes] are
    not among the values of the model; nothing is stated about them. *)
Inductive pyval :=
| PyNone
| PyBool (b : bool)
| PyInt (z : Z)
| PyFloat (f : float)
| PyStr (s : list N).

(** Truth value of an object, as tested by [if x:] and [not x]. *)
Definition truthy (v : pyval) : bool :=
  match v with
  | PyNone => false
  | PyBool b => b
  | PyInt z => negb (z =? 0)%Z
  | PyFloat f => negb (PrimFloat.eqb f 0%float)
  | PyStr s => negb (Nat.eqb (length s) 0)
  end.

Definition type_name (v : pyval) : string :=
  match v with
  | PyNone => "NoneType"
  | PyBool _ => "bool"
  | PyInt _ => "int"
  | PyFloat _ => "float"
  | PyStr _ => "str"
  end.

Inductive exn :=
| KeyError (key : string)
| AttributeError (ty attr : string)      (* 'ty' object has no attribute 'attr' *)
| TypeError (msg : string)
| StopIteration
| DatabaseError (msg : list N).          (* raised by the session on a query *)

(** [str(e)] *)
Definition exn_str (e : exn) : list N :=
  match e with
  | KeyError k => pystr ("'" ++ k ++ "'")
  | AttributeError ty attr =>
      pystr ("'" ++ ty ++ "' object has no attribute '" ++ attr ++ "'")
  | TypeError msg => pystr msg
  | StopIteration => []
  | DatabaseError msg => msg
  end.

Inductive result (A : Type) :=
| Ok (a : A)
| Raise (e : exn).
Arguments Ok {A} a.
Arguments Raise {A} e.

#[global] Instance result_ret : MRet result := fun A a => Ok a.
#[global] Instance result_bind : MBind result := fun A B f m =>
  match m with
  | Ok a => f a
  | Raise e => Raise e
  end.

(** ** The catalog behind the database session *)

Record Product := {
  p_id : list N;                 (* primary key *)
  p_sku : list N;                (* unique, not null *)
  p_msku : option (list N);      (* nullable *)
  p_name : list N
}.

Record MarketplaceListing := {
  l_platform : list N;
  l_marketplace_sku : list N;
  l_product : option Product     (* the [product] relationship *)
}.

(** A session either answers every query from its tables or fails every
    query with an error of the driver. *)
Inductive Session :=
| Live (products : list Product) (listings : list MarketplaceListing)
| Down (msg : list N).

Definition query_products (db : Session) : result (list Product) :=
  match db with
  | Live products _ => Ok products
  | Down msg => Raise (DatabaseError msg)
  end.

Definition query_listings (db : Session) : result (list MarketplaceListing) :=
  match db with
  | Live _ listings => Ok listings
  | Down msg => Raise (DatabaseError msg)
  end.

(** [format(n, 'X')]: upper-case hexadecimal digits, no padding. *)
Definition hex_char (d : N) : N :=
  if (d <? 10)%N then (48 + d)%N else (55 + d)%N.

(** The digits of [n], most significant first, in front of [acc]. *)
Fixpoint hex_digits (fuel : nat) (n : N) (acc : list N) : list N :=
  match fuel with
  | O => acc
  | S fuel' =>
      let acc := hex_char (n mod 16) :: acc in
      if (n <? 16)%N then acc else hex_digits fuel' (n / 16) acc
  end.

Definition hex_of_N (n : N) : list N :=
  hex_digits (S (N.to_nat (N.log2 n))) n [].

Definition format_X (n : Z) : list N :=
  if (n <? 0)%Z
  then hyphen :: hex_of_N (Z.to_N (- n))
  else hex_of_N (Z.to_N n).

(** Python's [min(a, b)]: the first argument unless the second is smaller. *)
Definition py_min (a b : float) : float :=
  if PrimFloat.ltb b a then b else a.

(** [a >= b] on floats. *)
Definition py_ge (a b : float) : bool := PrimFloat.leb b a.

(** [int / int]: both lengths are converted to [float] and divided. *)
Definition float_of_len (n : nat) : float :=
  PrimFloat.of_uint63 (Uint63.of_Z (Z.of_nat n)).

(** [d.get(k)] and [d[k]] *)
Definition dict_get (d : gmap string pyval) (k : string) : pyval :=
  default PyNone (d !! k).

Definition dict_item (d : gmap string pyval) (k : string) : result pyval :=
  match d !! k with
  | Some v => Ok v
  | None => Raise (KeyError k)
  end.

(** Lookup in a dictionary literal, kept in source order. *)
Fixpoint assoc {A : Type} (k : list N) (d : list (list N * A)) : option A :=
  match d with
  | [] => None
  | (k', v) :: d' => if bool_decide (k' = k) then Some v else assoc k d'
  end.

(** ** The service *)

Section SKUMapperService.
(** The interpreter's Unicode tables. *)
Variable ud : UnicodeData.
(** [fuzzywuzzy.process.extractOne(query, choices, scorer=fuzz.ratio)]:
    the best choice with its score (0 to 100), [None] without choices. *)
Variable extractOne : list N -> list (list N) -> option (list N * Z).

Definition cls_digit : regex := Cls is_digit.                        (* [0-9] *)
Definition cls_upper : regex := Cls is_upper_az.                     (* [A-Z] *)
Definition cls_upper_digit : regex :=                                (* [A-Z0-9] *)
  Cls (fun c => is_upper_az c || is_digit c).
Definition cls_shopify : regex :=                                    (* [a-zA-Z0-9\-_] *)
  Cls (fun c => ascii_isalnum c || (c =? hyphen)%N || (c =? underscore)%N).
Definition cls_d : regex := Cls (py_isdecimal ud).                   (* \d *)

(** [[A-Z]{2,4}-\d{4,8}] *)
Definition re_standard : regex :=
  Seq (Rep 2 4 cls_upper) (Seq (Chr hyphen) (Rep 4 8 cls_d)).

(** [self.patterns]; every pattern stands between [^] and [$]. *)
Definition patterns : list (list N * regex) :=
  [ (pystr "amazon",
      Alt (Seq (Chr 66) (Rep 9 9 cls_upper_digit)) (Rep 10 10 cls_upper_digit));
    (pystr "ebay", Rep 12 12 cls_digit);
    (pystr "shopify", Rep 1 100 cls_shopify);
    (pystr "walmart", Rep 8 15 cls_upper_digit);
    (pystr "standard", re_standard);
    (pystr "combo", Seq re_standard (Star (Seq (Chr comma) re_standard))) ].

(** [validate_sku(sku, marketplace)] for a [str]; [None] is the default
    of [marketplace]. *)
Definition validate_sku (sku : list N) (marketplace : option (list N)) : bool :=
  match sku, strip (py_isspace ud) sku with
  | [], _ | _, [] => false
  | _, stripped =>
      let sku := str_upper ud stripped in
      match marketplace with
      | Some ((_ :: _) as m) =>
          match assoc m patterns with
          | Some pattern => match_to_end pattern sku
          | None => existsb (fun kp => match_to_end (snd kp) sku) patterns
          end
      | _ => existsb (fun kp => match_to_end (snd kp) sku) patterns
      end
  end.

Definition _process_amazon_sku (sku : list N) : list N :=
  match sku with
  | 66%N :: _ =>
      if Nat.eqb (length sku) 10 then pystr "AMZ-" ++ sku else sku
  | _ => sku
  end.

Definition _process_ebay_sku (sku : list N) : list N :=
  if match_to_end (Rep 12 12 cls_d) sku
  then pystr "EBY-" ++ skipn (length sku - 8) sku
  else sku.

Definition _process_shopify_sku (sku : list N) : list N :=
  let cleaned :=
    List.filter (fun c => ascii_isalnum c || (c =? hyphen)%N) sku in
  pystr "SHO-" ++ cleaned.

Definition _process_walmart_sku (sku : list N) : list N :=
  if match_to_end (Rep 8 15 cls_upper_digit) sku
  then pystr "WMT-" ++ sku
  else sku.

(** [self.marketplace_rules] *)
Definition marketplace_rules : list (list N * (list N -> list N)) :=
  [ (pystr "amazon", _process_amazon_sku);
    (pystr "ebay", _process_ebay_sku);
    (pystr "shopify", _process_shopify_sku);
    (pystr "walmart", _process_walmart_sku) ].

Definition _apply_marketplace_rules (sku marketplace : list N) : list N :=
  match assoc marketplace marketplace_rules with
  | Some rule => rule sku
  | None => sku
  end.

(** [next(p for p in products if cond(p))] *)
Definition next_product (cond : Product -> bool) (products : list Product)
  : result Product :=
  match List.find cond products with
  | Some p => Ok p
  | None => Raise StopIteration
  end.

Definition nonempty (s : list N) : bool := negb (Nat.eqb (length s) 0).

(** [match and match[1] >= threshold], giving [match[0]]. *)
Definition accepted (match_ : option (list N * Z)) (threshold : Z)
  : option (list N) :=
  match match_ with
  | Some (choice, score) => if (threshold <=? score)%Z then Some choice else None
  | None => None
  end.

Definition _fuzzy_match_product (sku : list N) (db : Session) (threshold : Z)
  : result (option Product) :=
  products ← query_products db;
  match products with
  | [] => Ok None
  | _ =>
      let sku_list := List.filter nonempty (List.map p_sku products) in
      let msku_list := List.filter nonempty (omap p_msku products) in
      (* Try fuzzy matching on SKUs *)
      match accepted (extractOne sku sku_list) threshold with
      | Some choice =>
          p ← next_product (fun p => bool_decide (p_sku p = choice)) products;
          Ok (Some p)
      | None =>
          (* Try fuzzy matching on MSKUs *)
          match accepted (extractOne sku msku_list) threshold with
          | Some choice =>
              p ← next_product
                    (fun p => bool_decide (p_msku p = Some choice)) products;
              Ok (Some p)
          | None => Ok None
          end
      end
  end.

Definition _find_existing_product (mapped_sku marketplace : list N) (db : Session)
  : result (option Product) :=
  (* Direct SKU match *)
  products ← query_products db;
  match List.find (fun p => bool_decide (p_sku p = mapped_sku)) products with
  | Some product => Ok (Some product)
  | None =>
      (* MSKU match *)
      products ← query_products db;
      match List.find (fun p => bool_decide (p_msku p = Some mapped_sku)) products with
      | Some product => Ok (Some product)
      | None =>
          (* Marketplace listing match *)
          listings ← query_listings db;
          match List.find
                  (fun l => bool_decide (l_marketplace_sku l = mapped_sku)
                            && bool_decide (l_platform l = marketplace))
                  listings with
          | Some listing => Ok (l_product listing)
          | None =>
              (* Fuzzy matching for similar products *)
              _fuzzy_match_product mapped_sku db 80
          end
      end
  end.

Definition hash_step (hash_value : Z) (char : N) : Z :=
  let hash_value := (Z.shiftl hash_value 5 - hash_value + Z.of_N char)%Z in
  Z.land hash_value 0xFFFFFFFF.

(** The loop of [_simple_hash]. *)
Definition rolling_hash (text : list N) : Z := fold_left hash_step text 0%Z.

Definition _simple_hash (text : list N) : list N :=
  firstn 6 (format_X (Z.abs (rolling_hash text))).

Definition _generate_msku (mapped_sku marketplace : list N)
    (existing_product : option Product) : list N :=
  match existing_product with
  | Some p =>
      match p_msku p with
      | Some ((_ :: _) as msku) => msku
      | _ => p_sku p
      end
  | None =>
      let prefix := firstn 3 (str_upper ud marketplace) in
      let hash_value := _simple_hash mapped_sku in
      pystr "WMS-" ++ prefix ++ pystr "-" ++ hash_value
  end.

Definition _calculate_confidence (original_sku mapped_sku : list N)
    (existing_product : option Product) (marketplace : list N) : float :=
  let confidence := 0.5%float in
  let confidence :=
    if validate_sku original_sku (Some marketplace)
    then (confidence + 0.2)%float else confidence in
  let confidence :=
    match existing_product with
    | Some p =>
        let confidence := (confidence + 0.3)%float in
        if bool_decide (p_sku p = mapped_sku) then 1.0%float else confidence
    | None => confidence
    end in
  let confidence :=
    if bool_decide (is_Some (assoc marketplace marketplace_rules))
    then (confidence + 0.1)%float else confidence in
  let confidence :=
    if (8 <=? length original_sku)%nat && existsb (N.eqb hyphen) original_sku
    then (confidence + 0.1)%float else confidence in
  py_min confidence 1.0%float.

Definition _determine_mapping_method (confidence : float)
    (existing_product : option Product) : list N :=
  if bool_decide (is_Some existing_product) && py_ge confidence 0.9%float
  then pystr "automatic"
  else if py_ge confidence 0.7%float then pystr "ai_suggested"
  else pystr "manual".

Definition _generate_mapping_notes (confidence : float)
    (existing_product : option Product) : list N :=
  let tier :=
    if py_ge confidence 0.9%float then pystr "High confidence automatic mapping"
    else if py_ge confidence 0.7%float
    then pystr "AI suggested mapping - review recommended"
    else pystr "Low confidence mapping - manual review required" in
  let matched :=
    match existing_product with
    | Some p => pystr "Matched to existing product: " ++ p_name p
    | None => pystr "No existing product match found"
    end in
  tier ++ pystr "; " ++ matched.

(** The dictionary built at the end of [map_sku]. *)
Definition mapping_result (original_sku : pyval) (mapped_sku msku marketplace : list N)
    (confidence : float) (mapping_method : list N)
    (existing_product : option Product) : gmap string pyval :=
  list_to_map
    [ ("original_sku", original_sku);
      ("mapped_sku", PyStr mapped_sku);
      ("msku", PyStr msku);
      ("marketplace", PyStr marketplace);
      ("confidence", PyFloat confidence);
      ("mapping_method", PyStr mapping_method);
      ("product_id",
        match existing_product with Some p => PyStr (p_id p) | None => PyNone end);
      ("notes", PyStr (_generate_mapping_notes confidence existing_product)) ].

(** [map_sku] on a [str]: the annotated use. *)
Definition map_sku_str (original_sku marketplace : list N) (db : Session)
  : result (gmap string pyval) :=
  let cleaned_sku := _clean_sku ud original_sku in
  let mapped_sku := _apply_marketplace_rules cleaned_sku marketplace in
  existing_product ← _find_existing_product mapped_sku marketplace db;
  let msku := _generate_msku mapped_sku marketplace existing_product in
  let confidence :=
    _calculate_confidence original_sku mapped_sku existing_product marketplace in
  let mapping_method := _determine_mapping_method confidence existing_product in
  Ok (mapping_result (PyStr original_sku) mapped_sku msku marketplace
        confidence mapping_method existing_product).

(** [map_sku] on a value of the model.  A true [bool], [int] or [float]
    has no [strip] ([_clean_sku] raises); [None], [False], [0] and [0.0]
    are cleaned to the empty string, looked up, and fail at
    [len(original_sku)] in [_calculate_confidence]. *)
Definition map_sku (original_sku : pyval) (marketplace : list N) (db : Session)
  : result (gmap string pyval) :=
  match original_sku with
  | PyStr s => map_sku_str s marketplace db
  | v =>
      if truthy v then Raise (AttributeError (type_name v) "strip")
      else
        let mapped_sku := _apply_marketplace_rules [] marketplace in
        _ ← _find_existing_product mapped_sku marketplace db;
        Raise (TypeError ("object of type '" ++ type_name v ++ "' has no len()"))
  end.

(** The record appended by the [except] branch of [batch_map_skus]. *)
Definition failure_record (sku_data : gmap string pyval) (e : exn)
  : gmap string pyval :=
  list_to_map
    [ ("original_sku", dict_get sku_data "sku");
      ("error", PyStr (exn_str e));
      ("confidence", PyFloat 0.0%float);
      ("mapping_method", PyStr (pystr "failed")) ].

(** The [try] block of the loop: [result.update(sku_data)] overwrites the
    keys that [sku_data] also has. *)
Definition batch_item (sku_data : gmap string pyval) (marketplace : list N)
    (db : Session) : result (gmap string pyval) :=
  sku ← dict_item sku_data "sku";
  result ← map_sku sku marketplace db;
  Ok (sku_data ∪ result).

(** One turn of the loop: the record appended for [sku_data]. *)
Definition batch_record (marketplace : list N) (db : Session)
    (sku_data : gmap string pyval) : gmap string pyval :=
  match batch_item sku_data marketplace db with
  | Ok result => result
  | Raise e => failure_record sku_data e
  end.

(** The loop of [batch_map_skus]: every turn appends one record to
    [results]. *)
Fixpoint batch_loop (sku_list : list (gmap string pyval))
    (marketplace : list N) (db : Session)
    (results : list (gmap string pyval)) : list (gmap string pyval) :=
  match sku_list with
  | [] => results
  | sku_data :: rest =>
      batch_loop rest marketplace db
        (results ++ [batch_record marketplace db sku_data])
  end.

Definition batch_map_skus (sku_list : list (gmap string pyval))
    (marketplace : list N) (db : Session) : list (gmap string pyval) :=
  batch_loop sku_list marketplace db [].

(** [mapping.get('confidence', 0) < 0.6]; an [int] is compared exactly. *)
Definition low_confidence (mapping : gmap string pyval) : result bool :=
  match mapping !! "confidence" with
  | None => Ok true
  | Some (PyFloat f) => Ok (PrimFloat.ltb f 0.6%float)
  | Some (PyInt z) => Ok (z <=? 0)%Z
  | Some (PyBool b) => Ok (negb b)
  | Some v =>
      Raise (TypeError ("'<' not supported between instances of '"
                        ++ type_name v ++ "' and 'float'"))
  end.

Record BatchReport := {
  valid : list (gmap string pyval);
  invalid : list (gmap string pyval);
  warnings : list (list N);
  total_processed : nat;
  success_rate : pyval
}.

(** One turn of the loop of [validate_mapping_batch] on the three lists. *)
Definition validate_step
    (acc : list (gmap string pyval) * list (gmap string pyval) * list (list N))
    (mapping : gmap string pyval)
  : result (list (gmap string pyval) * list (gmap string pyval) * list (list N)) :=
  let '(valid_mappings, invalid_mappings, warnings) := acc in
  let marketplace :=
    match dict_get mapping "marketplace" with PyStr m => Some m | _ => None end in
  match dict_get mapping "original_sku" with
  | PyStr sku =>
      if validate_sku sku marketplace then
        low ← low_confidence mapping;
        Ok (valid_mappings ++ [mapping], invalid_mappings,
            if (low : bool)
            then warnings ++ [pystr "Low confidence mapping for SKU: " ++ sku]
            else warnings)
      else Ok (valid_mappings, invalid_mappings ++ [mapping], warnings)
  | v =>
      if truthy v then Raise (AttributeError (type_name v) "strip")
      else Ok (valid_mappings, invalid_mappings ++ [mapping], warnings)
  end.

Fixpoint validate_loop (mappings : list (gmap string pyval))
    (acc : list (gmap string pyval) * list (gmap string pyval) * list (list N))
  : result (list (gmap string pyval) * list (gmap string pyval) * list (list N)) :=
  match mappings with
  | [] => Ok acc
  | mapping :: rest => acc' ← validate_step acc mapping; validate_loop rest acc'
  end.

Definition validate_mapping_batch (mappings : list (gmap string pyval))
  : result BatchReport :=
  '(valid_mappings, invalid_mappings, warnings) ← validate_loop mappings ([], [], []);
  Ok {| valid := valid_mappings;
        invalid := invalid_mappings;
        warnings := warnings;
        total_processed := length mappings;
        success_rate :=
          match mappings with
          | [] => PyInt 0
          | _ => PyFloat (float_of_len (length valid_mappings)
                          / float_of_len (length mappings))%float
          end |}.

End SKUMapperService.

(** ** Vocabulary of the specification *)

(** The characters of a clean ASCII SKU: [A-Z], [0-9], underscore, hyphen. *)
Definition sku_char (c : N) : bool :=
  is_upper_az c || is_digit c || (c =? underscore)%N || (c =? hyphen)%N.

Definition all_ascii (s : list N) : bool := forallb is_ascii s.

(** The 128 ASCII code points. *)
Definition ascii_table : list N := List.map N.of_nat (seq 0 128).

(** The four values of [method] the specification knows, and the three that
    [map_sku] can choose. *)
Definition methods_of_map : list (list N) :=
  [pystr "automatic"; pystr "ai_suggested"; pystr "manual"].

Definition all_methods : list (list N) := methods_of_map ++ [pystr "failed"].

(** [0 <= c <= 1] on floats. *)
Definition in_unit_interval (c : float) : bool :=
  PrimFloat.leb 0%float c && PrimFloat.leb c 1%float.

(** The hash as the specification words it: [hash = hash*31 + char_code],
    wrapped to 32 bits. *)
Definition spec_hash_step (hash : Z) (char_code : N) : Z :=
  ((hash * 31 + Z.of_N char_code) mod 2 ^ 32)%Z.

Definition spec_rolling_hash (text : list N) : Z :=
  fold_left spec_hash_step text 0%Z.

(** Reading an upper-case hexadecimal numeral back. *)
Definition is_hex_upper (c : N) : bool := is_digit c || in_range 65 70 c.

Definition hex_digit_value (c : N) : N :=
  if is_digit c then (c - 48)%N else (c - 55)%N.

Definition hex_value (s : list N) : N :=
  fold_left (fun acc c => (16 * acc + hex_digit_value c)%N) s 0%N.

(** [None], a [bool], an [int] or a [float]: the values of a field that
    are no strings. *)
Definition none_or_number (v : pyval) : bool :=
  match v with
  | PyNone | PyBool _ | PyInt _ | PyFloat _ => true
  | PyStr _ => false
  end.

(** The marketplace a mapping record states, if any. *)
Definition stated_marketplace (mapping : gmap string pyval) : option (list N) :=
  match dict_get mapping "marketplace" with PyStr m => Some m | _ => None end.

(** The record's [original_sku] passes format validation for its marketplace. *)
Definition passes_validation (ud : UnicodeData) (mapping : gmap string pyval) : bool :=
  match dict_get mapping "original_sku" with
  | PyStr sku => validate_sku ud sku (stated_marketplace mapping)
  | _ => false
  end.

(** The record's confidence is below 0.6 (a record without one counts as 0). *)
Definition below_06 (mapping : gmap string pyval) : bool :=
  match low_confidence mapping with Ok b => b | Raise _ => false end.

Definition warning_of (mapping : gmap string pyval) : list N :=
  pystr "Low confidence mapping for SKU: "
  ++ match dict_get mapping "original_sku" with PyStr sku => sku | _ => [] end.

(** A mapping record: [original_sku] is a string (or missing, [None], a false
    value), and [confidence] is a number or missing. *)
Definition mapping_record (mapping : gmap string pyval) : bool :=
  match dict_get mapping "original_sku" with
  | PyStr _ => true
  | v => negb (truthy v)
  end
  && match mapping !! "confidence" with
     | None | Some (PyFloat _) | Some (PyInt _) | Some (PyBool _) => true
     | _ => false
     end.

(** ** Data of the examples *)

(** A fuzzy matcher that finds nothing; on an empty catalog it is never asked. *)
Definition no_fuzzy : list N -> list (list N) -> option (list N * Z) :=
  fun _ _ => None.

(** A fuzzy matcher that scores the first choice 93. *)
Definition first_choice_93 : list N -> list (list N) -> option (list N * Z) :=
  fun _ choices =>
    match choices with
    | choice :: _ => Some (choice, 93%Z)
    | [] => None
    end.

Definition widget : Product := {|
  p_id := pystr "p-1";
  p_sku := pystr "AMZ-B001122334";
  p_msku := Some (pystr "MSKU-0001");
  p_name := pystr "Widget"
|}.

Definition one_widget : Session := Live [widget] [].

Definition empty_catalog : Session := Live [] [].

Definition widget_listing : MarketplaceListing := {|
  l_platform := pystr "ebay";
  l_marketplace_sku := pystr "EBY-56789012";
  l_product := Some widget
|}.

Definition widget_on_ebay : Session := Live [widget] [widget_listing].

Definition item_asin : gmap string pyval := {[ "sku" := PyStr (pystr "B001122334") ]}.

Definition item_without_sku : gmap string pyval := {[ "row" := PyInt 2 ]}.

Definition item_empty_sku : gmap string pyval := {[ "sku" := PyStr [] ]}.

Definition item_with_confidence : gmap string pyval :=
  {[ "sku" := PyStr (pystr "X"); "confidence" := PyFloat 5.0%float ]}.

Definition record_low : gmap string pyval :=
  {[ "original_sku" := PyStr (pystr "B001122334");
     "marketplace" := PyStr (pystr "amazon");
     "confidence" := PyFloat 0.5%float ]}.

Definition record_high : gmap string pyval :=
  {[ "original_sku" := PyStr (pystr "AB-1234");
     "marketplace" := PyStr (pystr "etsy");
     "confidence" := PyFloat 0.9%float ]}.

Definition record_bad : gmap string pyval :=
  {[ "original_sku" := PyStr (pystr "???");
     "marketplace" := PyStr (pystr "ebay");
     "confidence" := PyFloat 1.0%float ]}.


(** ** Combo SKUs *)

(** [s.split(sep)] for a separator of one character: the pieces between the
    separators, empty ones included; the empty string gives one empty piece. *)
Fixpoint split_on (sep : N) (s : list N) : list (list N) :=
  match s with
  | [] => [[]]
  | c :: s' =>
      if (c =? sep)%N then [] :: split_on sep s'
      else match split_on sep s' with
           | piece :: pieces => (c :: piece) :: pieces
           | [] => [[c]]
           end
  end.

(** [SKUMapperService.process_combo_sku]; [self.patterns['combo']] is an
    entry of the literal. *)
Definition process_combo_sku (ud : UnicodeData) (combo_sku : list N)
  : list (list N) :=
  if match_to_end (default Void (assoc (pystr "combo") (patterns ud))) combo_sku
  then List.map (strip (py_isspace ud)) (split_on comma combo_sku)
  else [combo_sku].

(** ** More vocabulary *)

(** [sep.join(pieces)] *)
Fixpoint join_with (sep : N) (pieces : list (list N)) : list N :=
  match pieces with
  | [] => []
  | [piece] => piece
  | piece :: pieces' => piece ++ sep :: join_with sep pieces'
  end.

(** A character that is neither a comma nor whitespace. *)
Definition plain (ud : UnicodeData) (c : N) : Prop :=
  c <> comma /\ py_isspace ud c = false.

(** The characters of the shopify pattern. *)
Definition shopify_char (c : N) : bool :=
  ascii_isalnum c || (c =? hyphen)%N || (c =? underscore)%N.

(** [extractOne] returns one of the choices it was given. *)
Definition picks_a_choice
    (extractOne : list N -> list (list N) -> option (list N * Z)) : Prop :=
  forall query choices choice score,
    extractOne query choices = Some (choice, score) -> In choice choices.

(** [extractOne] scores no choice of [choices] at 80 or above for
    [query]. *)
Definition scores_below_80
    (extractOne : list N -> list (list N) -> option (list N * Z))
    (query : list N) (choices : list (list N)) : Prop :=
  forall choice score,
    extractOne query choices = Some (choice, score) -> (score < 80)%Z.

(** The first sentence of the notes that belongs to a method. *)
Definition tier_note (method : list N) : list N :=
  if bool_decide (method = pystr "automatic")
  then pystr "High confidence automatic mapping"
  else if bool_decide (method = pystr "ai_suggested")
  then pystr "AI suggested mapping - review recommended"
  else pystr "Low confidence mapping - manual review required".

(** ** The mapper of the desktop tool ([src/sku_mapper.py]) *)

Module Desktop.

(** The state of a [SKUMapper]; [marketplace_formats] is kept in insertion
    order, a pattern with the name it was added under. *)
Record SKUMapper := {
  mapping_data : gmap (list N) (list N);
  reverse_mapping : gmap (list N) (list (list N));
  combo_products : gmap (list N) (list (list N));
  marketplace_formats : list (list N * list N)
}.

Section WithMatcher.
Variable ud : UnicodeData.
(** [re.match(pattern, sku)] is not [None]; a pattern that does not compile
    raises. *)
Variable re_match : list N -> list N -> result bool.

Definition _transform_sku (sku format_info : list N) : list N := sku.

(** The loop over [self.marketplace_formats.items()]: the master SKU it
    returns, if it returns from inside the loop. *)
Fixpoint try_formats (self : SKUMapper) (formats : list (list N * list N))
    (sku : list N) : result (option (list N)) :=
  match formats with
  | [] => Ok None
  | (pattern, format_info) :: rest =>
      matched ← re_match pattern sku;
      if (matched : bool) then
        let transformed_sku := _transform_sku sku format_info in
        match mapping_data self !! transformed_sku with
        | Some msku => Ok (Some msku)
        | None => try_formats self rest sku
        end
      else try_formats self rest sku
  end.

(** [SKUMapper.map_sku_to_msku] on a [str]: the master SKU and the error
    message, one of them [None]. *)
Definition map_sku_to_msku (self : SKUMapper) (sku : list N)
  : result (option (list N) * option (list N)) :=
  match sku with
  | [] => Ok (None, Some (pystr "Empty SKU provided"))
  | _ =>
      let sku := strip (py_isspace ud) sku in
      (* Direct mapping *)
      match mapping_data self !! sku with
      | Some msku => Ok (Some msku, None)
      | None =>
          (* Try to match using marketplace format patterns *)
          found ← try_formats self (marketplace_formats self) sku;
          match found with
          | Some msku => Ok (Some msku, None)
          | None => Ok (None, Some (pystr "No mapping found for SKU: " ++ sku))
          end
      end
  end.

End WithMatcher.

End Desktop.

(** A mapper with one entry and one format, and a matcher that accepts
    everything. *)
Definition one_entry_mapper : Desktop.SKUMapper := {|
  Desktop.mapping_data := {[ pystr "A1" := pystr "M1" ]};
  Desktop.reverse_mapping := {[ pystr "M1" := [pystr "A1"] ]};
  Desktop.combo_products := ∅;
  Desktop.marketplace_formats := [(pystr "^A", pystr "amazon")]
|}.

Definition matches_all : list N -> list N -> result bool := fun _ _ => Ok true.
(** * Properties *)

(** ** The pattern matcher *)

Lemma fullmatch_Void s : fullmatch Void s = false.
Proof. induction s as [|c s IH]; simpl; auto. Qed.

Lemma fullmatch_Alt r1 r2 s :
  fullmatch (Alt r1 r2) s = fullmatch r1 s || fullmatch r2 s.
Proof. revert r1 r2. induction s as [|c s IH]; intros r1 r2; simpl; auto. Qed.

Lemma fullmatch_Seq_Void r s : fullmatch (Seq Void r) s = false.
Proof. induction s as [|c s IH]; simpl; auto. Qed.

Lemma fullmatch_Seq_Eps r s : fullmatch (Seq Eps r) s = fullmatch r s.
Proof.
  destruct s as [|c s]; simpl; [done|].
  by rewrite fullmatch_Alt, fullmatch_Seq_Void.
Qed.

(** The patterns of the service repeat a character class: [[...]{lo,hi}]
    matches the strings of [lo] to [hi] characters of the class. *)
Lemma fullmatch_Rep_Cls p s : forall lo hi,
  lo <= hi ->
  fullmatch (Rep lo hi (Cls p)) s
  = (lo <=? length s)%nat && (length s <=? hi)%nat && forallb p s.
Proof.
  induction s as [|c s IH]; intros lo hi Hle.
  - simpl. rewrite orb_false_r, andb_true_r.
    destruct (Nat.leb_spec lo hi); [|lia].
    by destruct lo.
  - cbn [fullmatch deriv length forallb].
    destruct hi as [|hi].
    { rewrite fullmatch_Void. destruct (lo <=? _)%nat; reflexivity. }
    destruct (p c); cbn [andb].
    + rewrite fullmatch_Seq_Eps, IH by lia.
      destruct lo as [|lo]; reflexivity.
    + rewrite fullmatch_Seq_Void. by rewrite andb_false_r.
Qed.

(** ** The normalizer *)

Lemma ascii_table_complete c : is_ascii c = true -> In c ascii_table.
Proof.
  unfold is_ascii, ascii_table. intros H%N.ltb_lt.
  apply in_map_iff. exists (N.to_nat c). split; [lia|].
  apply in_seq. lia.
Qed.

(** A boolean property of characters is checked on ASCII by running it on
    the 128 code points. *)
Lemma ascii_cases (f : N -> bool) :
  forallb f ascii_table = true -> forall c, is_ascii c = true -> f c = true.
Proof.
  intros H c Hc. rewrite List.forallb_forall in H.
  apply H, ascii_table_complete, Hc.
Qed.

Lemma sku_char_ascii c : sku_char c = true -> is_ascii c = true.
Proof.
  unfold sku_char, is_upper_az, is_digit, in_range, is_ascii, underscore, hyphen.
  rewrite !orb_true_iff, !andb_true_iff, !N.leb_le, !N.eqb_eq, N.ltb_lt. lia.
Qed.

Section CleanProps.
Variable ud : UnicodeData.

Lemma upper_of_kept_ascii c :
  is_ascii c = true -> word_or_hyphen ud c = true ->
  py_upper_char ud c = [ascii_upper c] /\ sku_char (ascii_upper c) = true.
Proof.
  intros Ha Hw.
  pose proof (ascii_cases
    (fun c => implb (word_or_hyphen ud c)
                (bool_decide (py_upper_char ud c = [ascii_upper c])
                 && sku_char (ascii_upper c))) eq_refl c Ha) as H.
  cbv beta in H. rewrite Hw in H. simpl in H.
  apply andb_true_iff in H as [H1 H2].
  apply bool_decide_eq_true in H1. done.
Qed.

Lemma sku_char_fixed c :
  sku_char c = true ->
  py_isspace ud c = false /\ is_quote c = false
  /\ word_or_hyphen ud c = true /\ py_upper_char ud c = [c].
Proof.
  intros Hs.
  pose proof (ascii_cases
    (fun c => implb (sku_char c)
                (negb (py_isspace ud c) && negb (is_quote c)
                 && word_or_hyphen ud c
                 && bool_decide (py_upper_char ud c = [c])))
    eq_refl c (sku_char_ascii c Hs)) as H.
  cbv beta in H. rewrite Hs in H. simpl in H.
  repeat (apply andb_true_iff in H as [H ?]).
  repeat match goal with
         | H : negb _ = true |- _ => apply negb_true_iff in H
         | H : bool_decide _ = true |- _ => apply bool_decide_eq_true in H
         end.
  done.
Qed.

Lemma lstrip_Forall (P : N -> Prop) p s : Forall P s -> Forall P (lstrip p s).
Proof.
  induction 1 as [|c s Hc Hs IH]; simpl; [constructor|].
  destruct (p c); [exact IH | by constructor].
Qed.

Lemma strip_Forall (P : N -> Prop) p s : Forall P s -> Forall P (strip p s).
Proof.
  intros H. unfold strip, rstrip.
  apply Forall_rev, lstrip_Forall, Forall_rev, lstrip_Forall, H.
Qed.

Lemma sub_space_runs_Forall (P : N -> Prop) b s :
  P hyphen -> Forall P s -> Forall P (sub_space_runs ud b s).
Proof.
  intros Hh H. revert b.
  induction H as [|c s Hc Hs IH]; intros b; simpl; [constructor|].
  destruct (py_isspace ud c); [destruct b|]; auto.
Qed.

Lemma lstrip_none p s : Forall (fun c => p c = false) s -> lstrip p s = s.
Proof. destruct 1 as [|c s Hc Hs]; simpl; [done | by rewrite Hc]. Qed.

Lemma strip_none p s : Forall (fun c => p c = false) s -> strip p s = s.
Proof.
  intros H. unfold strip, rstrip.
  rewrite (lstrip_none p s H), lstrip_none by (by apply Forall_rev).
  apply rev_involutive.
Qed.

Lemma sub_space_runs_none s :
  Forall (fun c => py_isspace ud c = false) s -> sub_space_runs ud false s = s.
Proof. induction 1 as [|c s Hc Hs IH]; simpl; [done | by rewrite Hc, IH]. Qed.

Lemma remove_special_all s :
  Forall (fun c => word_or_hyphen ud c = true) s -> remove_special ud s = s.
Proof.
  unfold remove_special.
  induction 1 as [|c s Hc Hs IH]; simpl; [done | by rewrite Hc, IH].
Qed.

Lemma str_upper_fixed s :
  Forall (fun c => py_upper_char ud c = [c]) s -> str_upper ud s = s.
Proof.
  unfold str_upper.
  induction 1 as [|c s Hc Hs IH]; simpl; [done | by rewrite Hc, IH].
Qed.

(** What [_clean_sku] leaves of an ASCII string: upper-case letters, digits,
    underscores and hyphens. *)
Lemma clean_sku_chars s :
  all_ascii s = true -> Forall (fun c => sku_char c = true) (_clean_sku ud s).
Proof.
  intros Ha. unfold _clean_sku. destruct s as [|c0 s0]; [constructor|].
  set (s := c0 :: s0) in *.
  assert (Hs : Forall (fun c => is_ascii c = true) s).
  { apply List.Forall_forall. intros c Hc. unfold all_ascii in Ha.
    rewrite List.forallb_forall in Ha. by apply Ha. }
  cbv zeta.
  assert (Hk : Forall (fun c => is_ascii c = true /\ word_or_hyphen ud c = true)
                 (remove_special ud
                    (sub_space_runs ud false
                       (strip is_quote (strip (py_isspace ud) s))))).
  { unfold remove_special. apply List.Forall_forall. intros c [Hin Hw]%filter_In.
    split; [|done]. clear Hw. revert c Hin. apply List.Forall_forall.
    apply sub_space_runs_Forall; [done|].
    by do 2 apply strip_Forall. }
  unfold str_upper.
  induction Hk as [|c t [Hc Hw] Ht IH]; simpl; [constructor|].
  destruct (upper_of_kept_ascii c Hc Hw) as [-> Hu].
  by constructor.
Qed.

(** A string of such characters is left alone by [_clean_sku]. *)
Lemma clean_sku_fixed t :
  Forall (fun c => sku_char c = true) t -> _clean_sku ud t = t.
Proof.
  intros Ht. unfold _clean_sku. destruct t as [|c0 t0]; [done|].
  set (t := c0 :: t0) in *. cbv zeta.
  assert (H1 : Forall (fun c => py_isspace ud c = false) t)
    by (eapply Forall_impl; [exact Ht | intros c Hc; apply sku_char_fixed, Hc]).
  assert (H2 : Forall (fun c => is_quote c = false) t)
    by (eapply Forall_impl; [exact Ht | intros c Hc; apply sku_char_fixed, Hc]).
  assert (H3 : Forall (fun c => word_or_hyphen ud c = true) t)
    by (eapply Forall_impl; [exact Ht | intros c Hc; apply sku_char_fixed, Hc]).
  assert (H4 : Forall (fun c => py_upper_char ud c = [c]) t)
    by (eapply Forall_impl; [exact Ht | intros c Hc; apply sku_char_fixed, Hc]).
  rewrite (strip_none _ _ H1), (strip_none _ _ H2), (sub_space_runs_none _ H1),
    (remove_special_all _ H3).
  by apply str_upper_fixed.
Qed.

End CleanProps.

Example clean_sku_quoted :
  _clean_sku ucd_excerpt (pystr " 'ab c_d!' ") = pystr "AB-C_D".
Proof. reflexivity. Qed.

Example clean_sku_inner_spaces :
  _clean_sku ucd_excerpt ([32%N; dquote] ++ pystr " a  b " ++ [dquote; 32%N])
  = pystr "-A-B-".
Proof. reflexivity. Qed.

(** C6 (code defect).  The normalizer's output is not made of alphanumeric
    characters and hyphens only: the class [\w] of [re.sub(r'[^\w\-]', '', _)]
    also keeps the underscore, so ["a_b"] is normalized to ["A_B"]. *)
Theorem clean_sku_keeps_underscore :
  _clean_sku ucd_excerpt (pystr "a_b") = pystr "A_B"
  /\ ~ Forall (fun c => py_isalnum ucd_excerpt c = true \/ c = hyphen)
         (_clean_sku ucd_excerpt (pystr "a_b")).
Proof.
  split; [reflexivity|].
  intros H. change (_clean_sku ucd_excerpt (pystr "a_b")) with [65%N; 95%N; 66%N] in H.
  inversion H as [|? ? _ H1]; subst. inversion H1 as [|? ? [Hu|Hu] _]; subst.
  - vm_compute in Hu. discriminate Hu.
  - vm_compute in Hu. discriminate Hu.
Qed.

(** C9 (as amended).  On every string of ASCII characters the normalizer is
    idempotent: [normalize(normalize(x)) = normalize(x)]. *)
Theorem clean_sku_ascii_idempotent (ud : UnicodeData) (x : list N) :
  all_ascii x = true ->
  _clean_sku ud (_clean_sku ud x) = _clean_sku ud x.
Proof.
  intros Hx.
  pose proof (clean_sku_chars ud x Hx) as Hclean.
  exact (clean_sku_fixed ud (_clean_sku ud x) Hclean).
Qed.

Lemma clean_sku_ascii_idempotent_witness :
  all_ascii (pystr " 'ab c_d!' ") = true
  /\ _clean_sku ucd_excerpt (_clean_sku ucd_excerpt (pystr " 'ab c_d!' "))
     = _clean_sku ucd_excerpt (pystr " 'ab c_d!' ").
Proof.
  split; [reflexivity|].
  apply (clean_sku_ascii_idempotent ucd_excerpt (pystr " 'ab c_d!' ")).
  reflexivity.
Defined.

(** C9 as stated fails outside ASCII: U+01F0 is a word character whose upper
    case is [J] followed by the combining caron U+030C, which is not a word
    character and is removed by a second pass. *)
Lemma clean_sku_not_idempotent :
  _clean_sku ucd_excerpt [0x1F0%N] = [0x4A%N; 0x30C%N]
  /\ _clean_sku ucd_excerpt [0x4A%N; 0x30C%N] = [0x4A%N]
  /\ _clean_sku ucd_excerpt (_clean_sku ucd_excerpt [0x1F0%N])
     <> _clean_sku ucd_excerpt [0x1F0%N].
Proof.
  split; [reflexivity|]. split; [reflexivity|].
  vm_compute. discriminate.
Qed.

(** ** The canonical id synthesizer *)

Lemma hash_step_spec h c : hash_step h c = spec_hash_step h c.
Proof.
  unfold hash_step, spec_hash_step.
  change 0xFFFFFFFF%Z with (Z.ones 32).
  rewrite Z.land_ones, Z.shiftl_mul_pow2 by lia.
  f_equal. lia.
Qed.

Lemma rolling_hash_spec text : rolling_hash text = spec_rolling_hash text.
Proof.
  unfold rolling_hash, spec_rolling_hash. generalize 0%Z.
  induction text as [|c text IH]; intros h; simpl; [done|].
  by rewrite hash_step_spec, IH.
Qed.

Lemma spec_rolling_hash_range text : (0 <= spec_rolling_hash text < 2 ^ 32)%Z.
Proof.
  unfold spec_rolling_hash.
  assert (H : forall h, (0 <= h < 2 ^ 32)%Z ->
                   (0 <= fold_left spec_hash_step text h < 2 ^ 32)%Z).
  { induction text as [|c text IH]; intros h Hh; simpl; [done|].
    apply IH. unfold spec_hash_step. apply Z.mod_pos_bound. lia. }
  apply H. lia.
Qed.

Lemma hex_char_spec d :
  (d < 16)%N -> is_hex_upper (hex_char d) = true /\ hex_digit_value (hex_char d) = d.
Proof.
  intros Hd.
  assert (Hin : In d (List.map N.of_nat (seq 0 16))).
  { apply in_map_iff. exists (N.to_nat d). split; [lia|]. apply in_seq. lia. }
  clear Hd. revert d Hin. apply List.Forall_forall.
  repeat constructor.
Qed.

Lemma hex_digits_app fuel n acc :
  hex_digits fuel n acc = hex_digits fuel n [] ++ acc.
Proof.
  revert n acc. induction fuel as [|fuel IH]; intros n acc; simpl; [done|].
  destruct (n <? 16)%N; [done|].
  rewrite IH, (IH _ [_]), <- app_assoc. done.
Qed.

Lemma hex_value_snoc s c :
  hex_value (s ++ [c]) = (16 * hex_value s + hex_digit_value c)%N.
Proof. unfold hex_value. by rewrite fold_left_app. Qed.

Lemma hex_char_nonzero d : (0 < d < 16)%N -> hex_char d <> 48%N.
Proof.
  intros Hd. unfold hex_char. destruct (N.ltb_spec d 10); lia.
Qed.

(** With enough fuel the digits are those of [n], without a leading zero. *)
Lemma hex_digits_spec fuel n :
  (n < 2 ^ N.of_nat fuel)%N ->
  let s := hex_digits fuel n [] in
  hex_value s = n
  /\ Forall (fun c => is_hex_upper c = true) s
  /\ (fuel <> 0 -> s <> [])
  /\ (n <> 0%N -> exists c rest, s = c :: rest /\ c <> 48%N).
Proof.
  revert n. induction fuel as [|fuel IH]; intros n Hn; cbv zeta.
  { simpl in *. split; [unfold hex_value; simpl; lia|].
    split; [constructor|]. split; [done|]. intros Hnz. lia. }
  simpl hex_digits.
  assert (Hm : (n mod 16 < 16)%N) by (apply N.mod_lt; lia).
  destruct (hex_char_spec _ Hm) as [Hx Hv].
  destruct (N.ltb_spec n 16) as [Hlt|Hge].
  - rewrite N.mod_small in * by done.
    split; [unfold hex_value; simpl; rewrite Hv; lia|].
    split; [by repeat constructor|]. split; [done|].
    intros Hnz. eexists _, _. split; [reflexivity|].
    apply hex_char_nonzero. lia.
  - rewrite hex_digits_app.
    assert (Hn' : (n / 16 < 2 ^ N.of_nat fuel)%N).
    { apply N.Div0.div_lt_upper_bound.
      replace (N.of_nat (S fuel)) with (N.succ (N.of_nat fuel)) in Hn by lia.
      rewrite N.pow_succ_r' in Hn. lia. }
    assert (Hq : (n / 16 <> 0)%N).
    { intros Hz. pose proof (N.div_mod' n 16). lia. }
    destruct (IH _ Hn') as (IH1 & IH2 & _ & IH4).
    destruct (IH4 Hq) as (c & rest & Hs & Hc).
    split; [|split; [|split]].
    + rewrite hex_value_snoc, IH1, Hv.
      pose proof (N.div_mod' n 16). lia.
    + apply Forall_app. split; [done | by repeat constructor].
    + intros _. rewrite Hs. done.
    + intros _. rewrite Hs. eexists _, _. split; [reflexivity | exact Hc].
Qed.

Lemma hex_of_N_spec n :
  hex_value (hex_of_N n) = n
  /\ Forall (fun c => is_hex_upper c = true) (hex_of_N n)
  /\ hex_of_N n <> []
  /\ (n <> 0%N -> exists c rest, hex_of_N n = c :: rest /\ c <> 48%N).
Proof.
  unfold hex_of_N.
  assert (Hn : (n < 2 ^ N.of_nat (S (N.to_nat (N.log2 n))))%N).
  { replace (N.of_nat (S (N.to_nat (N.log2 n)))) with (N.succ (N.log2 n)) by lia.
    destruct (N.eq_dec n 0%N) as [->|Hnz]; [done|].
    apply N.log2_spec. lia. }
  destruct (hex_digits_spec _ _ Hn) as (H1 & H2 & H3 & H4).
  repeat split; auto.
Qed.

Example simple_hash_of_asin : _simple_hash (pystr "AMZ-B001122334") = pystr "AFE3FE".
Proof. reflexivity. Qed.

Example generate_msku_reuses_msku :
  _generate_msku ucd_excerpt (pystr "AMZ-B001122334") (pystr "amazon") (Some widget)
  = pystr "MSKU-0001".
Proof. reflexivity. Qed.

(** C4 (as amended).  Without a catalog match the canonical id is [WMS-],
    the first three characters (fewer when there are fewer) of the
    upper-cased marketplace tag, [-], and the first six digits (all of them
    when there are fewer: nothing is padded) of the upper-case hexadecimal
    numeral, without leading zero, of the hash, where the hash is
    [hash*31 + char_code] wrapped to 32 bits over the transformed SKU.
    The id is this function of the transformed SKU and the marketplace, so
    equal inputs give equal ids. *)
Theorem generate_msku_without_match (ud : UnicodeData)
    (mapped_sku marketplace : list N) :
  let h := spec_rolling_hash mapped_sku in
  let digits := format_X h in
  _generate_msku ud mapped_sku marketplace None
    = pystr "WMS-" ++ firstn 3 (str_upper ud marketplace) ++ pystr "-"
      ++ firstn 6 digits
  /\ (0 <= h < 2 ^ 32)%Z
  /\ Z.of_N (hex_value digits) = h
  /\ Forall (fun c => is_hex_upper c = true) digits
  /\ (h <> 0%Z -> exists d rest, digits = d :: rest /\ d <> 48%N)
  /\ 1 <= length (firstn 6 digits) <= 6
  /\ (forall mapped_sku' marketplace',
        mapped_sku' = mapped_sku -> marketplace' = marketplace ->
        _generate_msku ud mapped_sku' marketplace' None
        = _generate_msku ud mapped_sku marketplace None).
Proof.
  cbv zeta. pose proof (spec_rolling_hash_range mapped_sku) as Hr.
  assert (Hf : format_X (spec_rolling_hash mapped_sku)
               = hex_of_N (Z.to_N (spec_rolling_hash mapped_sku))).
  { unfold format_X. destruct (Z.ltb_spec (spec_rolling_hash mapped_sku) 0); [lia|done]. }
  destruct (hex_of_N_spec (Z.to_N (spec_rolling_hash mapped_sku)))
    as (H1 & H2 & H3 & H4).
  split; [|split; [done|split; [|split; [|split; [|split]]]]].
  - unfold _generate_msku, _simple_hash.
    rewrite rolling_hash_spec, Z.abs_eq by lia. done.
  - rewrite Hf, H1. lia.
  - by rewrite Hf.
  - intros Hnz. rewrite Hf. apply H4. lia.
  - rewrite Hf, length_firstn.
    destruct (hex_of_N (Z.to_N (spec_rolling_hash mapped_sku))); [done|].
    cbn [length]. lia.
  - by intros ? ? -> ->.
Qed.

Lemma generate_msku_without_match_witness :
  _generate_msku ucd_excerpt (pystr "AMZ-B001122334") (pystr "amazon") None
  = pystr "WMS-" ++ firstn 3 (str_upper ucd_excerpt (pystr "amazon")) ++ pystr "-"
    ++ firstn 6 (format_X (spec_rolling_hash (pystr "AMZ-B001122334")))
  /\ spec_rolling_hash (pystr "AMZ-B001122334") = 2950954737%Z
  /\ exists d rest,
       format_X (spec_rolling_hash (pystr "AMZ-B001122334")) = d :: rest
       /\ d <> 48%N.
Proof.
  destruct (generate_msku_without_match ucd_excerpt (pystr "AMZ-B001122334")
              (pystr "amazon")) as (Hid & _ & _ & _ & Hlead & _ & _).
  split; [exact Hid|]. split; [reflexivity|].
  apply Hlead. vm_compute. discriminate.
Defined.

(** C4 as stated fails: the hash of ["A"] is 65, written [41], and the id
    has two hexadecimal digits, not six. *)
Lemma generate_msku_short_hash :
  _generate_msku ucd_excerpt (pystr "A") (pystr "amazon") None = pystr "WMS-AMA-41"
  /\ _simple_hash (pystr "A") = pystr "41"
  /\ length (_simple_hash (pystr "A")) <> 6.
Proof.
  split; [reflexivity|]. split; [reflexivity|].
  vm_compute. discriminate.
Qed.

(** ** The scorer and the orchestrator *)

(** Every run of [_calculate_confidence] is one of finitely many sums of
    doubles, decided by the tests of the function. *)
Ltac score_cases :=
  unfold _calculate_confidence, _determine_mapping_method;
  repeat match goal with
  | |- context [validate_sku ?u ?s ?m] => destruct (validate_sku u s m)
  | |- context [bool_decide ?P] => destruct (bool_decide P)
  | |- context [andb (Nat.leb ?a ?b) ?c] => destruct (andb (Nat.leb a b) c)
  | |- context [match ?e with Some _ => _ | None => _ end] => destruct e
  end.

Section Scoring.
Variable ud : UnicodeData.


Lemma confidence_unit original mapped existing marketplace :
  in_unit_interval (_calculate_confidence ud original mapped existing marketplace)
  = true.
Proof. score_cases; reflexivity. Qed.

Lemma confidence_exact original mapped p marketplace :
  p_sku p = mapped ->
  _calculate_confidence ud original mapped (Some p) marketplace = 1.0%float.
Proof.
  intros H. unfold _calculate_confidence.
  rewrite (bool_decide_eq_true_2 _ H).
  score_cases; reflexivity.
Qed.

Lemma method_cases original mapped existing marketplace :
  let c := _calculate_confidence ud original mapped existing marketplace in
  let m := _determine_mapping_method c existing in
  In m methods_of_map
  /\ (m = pystr "automatic" -> py_ge c 0.9%float = true /\ is_Some existing)
  /\ (m = pystr "manual" -> PrimFloat.ltb c 0.7%float = true).
Proof.
  cbv zeta. score_cases;
    (split; [vm_compute; tauto | split; vm_compute; intros H;
                                 first [discriminate H | eauto]]).
Qed.

Lemma mapping_result_lookup original mapped msku marketplace c m existing :
  let r := mapping_result original mapped msku marketplace c m existing in
  r !! "original_sku" = Some original
  /\ r !! "mapped_sku" = Some (PyStr mapped)
  /\ r !! "msku" = Some (PyStr msku)
  /\ r !! "marketplace" = Some (PyStr marketplace)
  /\ r !! "confidence" = Some (PyFloat c)
  /\ r !! "mapping_method" = Some (PyStr m)
  /\ r !! "product_id"
     = Some (match existing with Some p => PyStr (p_id p) | None => PyNone end)
  /\ r !! "error" = None.
Proof. cbv zeta. unfold mapping_result. repeat split. Qed.

End Scoring.

Section MapSku.
Variable ud : UnicodeData.
Variable extractOne : list N -> list (list N) -> option (list N * Z).

(** [map_sku] on a string fails exactly when the lookup does; otherwise it
    returns the record of the scored lookup. *)
Lemma map_sku_str_eq original marketplace db :
  map_sku ud extractOne (PyStr original) marketplace db
  = let mapped := _apply_marketplace_rules ud (_clean_sku ud original) marketplace in
    match _find_existing_product extractOne mapped marketplace db with
    | Ok existing =>
        let c := _calculate_confidence ud original mapped existing marketplace in
        Ok (mapping_result (PyStr original) mapped
              (_generate_msku ud mapped marketplace existing) marketplace
              c (_determine_mapping_method c existing) existing)
    | Raise e => Raise e
    end.
Proof.
  cbv zeta. unfold map_sku, map_sku_str.
  by destruct (_find_existing_product _ _ _ _).
Qed.

(** On [None] and on a number (the values of the model that are no
    strings) [map_sku] raises. *)
Lemma map_sku_not_str v marketplace db :
  (forall s, v <> PyStr s) ->
  exists e, map_sku ud extractOne v marketplace db = Raise e.
Proof.
  intros Hv. destruct v; try (by destruct (Hv s)); unfold map_sku;
    (destruct (truthy _); [eauto|]);
    destruct (_find_existing_product _ _ _ _); simpl; eauto.
Qed.

(** A returned record comes from a string and a successful lookup. *)
Lemma map_sku_ok v marketplace db r :
  map_sku ud extractOne v marketplace db = Ok r ->
  exists original existing,
    v = PyStr original
    /\ let mapped :=
         _apply_marketplace_rules ud (_clean_sku ud original) marketplace in
       let c := _calculate_confidence ud original mapped existing marketplace in
       _find_existing_product extractOne mapped marketplace db = Ok existing
       /\ r = mapping_result (PyStr original) mapped
                (_generate_msku ud mapped marketplace existing) marketplace
                c (_determine_mapping_method c existing) existing.
Proof.
  intros Hmap.
  destruct v as [| | | |s];
    try (match type of Hmap with
         | map_sku _ _ ?v _ _ = _ =>
             assert (Hv : forall s, v <> PyStr s) by (intros ?; discriminate);
             destruct (map_sku_not_str v marketplace db Hv) as [e He];
             rewrite He in Hmap; discriminate Hmap
         end).
  rewrite map_sku_str_eq in Hmap. cbv zeta in Hmap.
  destruct (_find_existing_product _ _ _ _) as [existing|e] eqn:Hfind;
    [|discriminate].
  injection Hmap as <-. exists s, existing. cbv zeta. auto.
Qed.

Lemma map_sku_ranges v marketplace db r :
  map_sku ud extractOne v marketplace db = Ok r ->
  exists c m,
    r !! "confidence" = Some (PyFloat c) /\ in_unit_interval c = true
    /\ r !! "mapping_method" = Some (PyStr m) /\ In m methods_of_map.
Proof.
  intros (s & existing & -> & _ & ->)%map_sku_ok.
  match goal with
  | |- context [mapping_result ?o ?m ?k ?mk ?c ?me ?ex] =>
      pose proof (mapping_result_lookup o m k mk c me ex) as Hl;
      pose proof (method_cases ud s m ex mk) as Hm;
      pose proof (confidence_unit ud s m ex mk) as Hr
  end.
  cbv zeta in Hl, Hm.
  destruct Hl as (_ & _ & _ & _ & Hc & Hme & _).
  destruct Hm as (Hin & _).
  eexists _, _. eauto.
Qed.

End MapSku.

Example validate_asin :
  validate_sku ucd_excerpt (pystr "b001122334 ") (Some (pystr "amazon")) = true.
Proof. reflexivity. Qed.

Example validate_too_short :
  validate_sku ucd_excerpt (pystr "X") (Some (pystr "amazon")) = false.
Proof. reflexivity. Qed.

Example validate_ebay_item :
  validate_sku ucd_excerpt (pystr "123456789012") (Some (pystr "ebay")) = true
  /\ validate_sku ucd_excerpt (pystr "12345678901A") (Some (pystr "ebay")) = false.
Proof. split; reflexivity. Qed.

Example validate_shopify_sku :
  validate_sku ucd_excerpt (pystr "my_sku-1") (Some (pystr "shopify")) = true
  /\ validate_sku ucd_excerpt (pystr "my sku-1") (Some (pystr "shopify")) = false.
Proof. split; reflexivity. Qed.

Example validate_combo_without_marketplace :
  validate_sku ucd_excerpt (pystr "AB-1234,CD-5678") None = true
  /\ validate_sku ucd_excerpt (pystr "AB-1234,CD-5678,") None = false.
Proof. split; reflexivity. Qed.

Example validate_unknown_marketplace :
  validate_sku ucd_excerpt (pystr "AB-1234") (Some (pystr "etsy")) = true.
Proof. reflexivity. Qed.

Example validate_blank :
  validate_sku ucd_excerpt (pystr "  ") None = false.
Proof. reflexivity. Qed.

Example find_by_sku :
  _find_existing_product no_fuzzy (pystr "AMZ-B001122334") (pystr "amazon") one_widget
  = Ok (Some widget).
Proof. reflexivity. Qed.

Example find_by_msku :
  _find_existing_product no_fuzzy (pystr "MSKU-0001") (pystr "amazon") one_widget
  = Ok (Some widget).
Proof. reflexivity. Qed.

Example find_by_listing :
  _find_existing_product no_fuzzy (pystr "EBY-56789012") (pystr "ebay") widget_on_ebay
  = Ok (Some widget)
  /\ _find_existing_product no_fuzzy (pystr "EBY-56789012") (pystr "amazon")
       widget_on_ebay = Ok None.
Proof. split; reflexivity. Qed.

Example find_fuzzy :
  _find_existing_product first_choice_93 (pystr "AMZ-B001122335") (pystr "amazon")
    one_widget = Ok (Some widget).
Proof. reflexivity. Qed.

Example find_on_lost_connection :
  _find_existing_product no_fuzzy (pystr "X") (pystr "amazon") (Down (pystr "gone"))
  = Raise (DatabaseError (pystr "gone")).
Proof. reflexivity. Qed.

Example transform_asin :
  _apply_marketplace_rules ucd_excerpt (pystr "B001122334") (pystr "amazon")
  = pystr "AMZ-B001122334".
Proof. reflexivity. Qed.

Example transform_ebay_item :
  _apply_marketplace_rules ucd_excerpt (pystr "123456789012") (pystr "ebay")
  = pystr "EBY-56789012".
Proof. reflexivity. Qed.

Example transform_shopify :
  _apply_marketplace_rules ucd_excerpt (pystr "A_B-C") (pystr "shopify")
  = pystr "SHO-AB-C".
Proof. reflexivity. Qed.

Example transform_unknown_marketplace :
  _apply_marketplace_rules ucd_excerpt (pystr "ABCDEFGH1") (pystr "etsy")
  = pystr "ABCDEFGH1".
Proof. reflexivity. Qed.

(** The scenario of the specification: an ASIN without catalog match.  The
    three doubles 0.5, 0.2 and 0.1 add up to 0.7999999999999999. *)
Example scenario_asin_without_match :
  match map_sku ucd_excerpt no_fuzzy (PyStr (pystr "B001122334")) (pystr "amazon")
          empty_catalog with
  | Ok r =>
      r !! "mapped_sku" = Some (PyStr (pystr "AMZ-B001122334"))
      /\ r !! "confidence" = Some (PyFloat (0.5 + 0.2 + 0.1)%float)
      /\ r !! "mapping_method" = Some (PyStr (pystr "ai_suggested"))
      /\ r !! "msku" = Some (PyStr (pystr "WMS-AMA-AFE3FE"))
      /\ r !! "product_id" = Some PyNone
  | Raise _ => False
  end.
Proof. vm_compute. repeat split. Qed.

(** A fuzzy match of a valid ASIN: 0.5 + 0.2 + 0.3 + 0.1 is cut back to 1.0. *)
Example scenario_fuzzy_match :
  match map_sku ucd_excerpt first_choice_93 (PyStr (pystr "B001122335"))
          (pystr "amazon") one_widget with
  | Ok r =>
      r !! "mapped_sku" = Some (PyStr (pystr "AMZ-B001122335"))
      /\ r !! "confidence" = Some (PyFloat 1.0%float)
      /\ r !! "mapping_method" = Some (PyStr (pystr "automatic"))
      /\ r !! "msku" = Some (PyStr (pystr "MSKU-0001"))
      /\ r !! "product_id" = Some (PyStr (pystr "p-1"))
  | Raise _ => False
  end.
Proof. vm_compute. repeat split. Qed.

(** C2.  When the lookup finds a product whose [sku] is the transformed SKU,
    [map_sku] returns confidence exactly 1.0 and method [automatic], whatever
    the other signals are. *)
Theorem exact_match_is_automatic (ud : UnicodeData)
    (extractOne : list N -> list (list N) -> option (list N * Z))
    (original_sku marketplace : list N) (db : Session) (matched : Product) :
  let transformed_sku :=
    _apply_marketplace_rules ud (_clean_sku ud original_sku) marketplace in
  _find_existing_product extractOne transformed_sku marketplace db = Ok (Some matched) ->
  p_sku matched = transformed_sku ->
  exists r,
    map_sku ud extractOne (PyStr original_sku) marketplace db = Ok r
    /\ r !! "confidence" = Some (PyFloat 1.0%float)
    /\ r !! "mapping_method" = Some (PyStr (pystr "automatic")).
Proof.
  cbv zeta. intros Hfind Hsku.
  rewrite map_sku_str_eq. cbv zeta. rewrite Hfind.
  rewrite (confidence_exact ud _ _ _ _ Hsku).
  eexists. split; [reflexivity|]. split; reflexivity.
Qed.

Lemma exact_match_is_automatic_witness :
  exists r,
    map_sku ucd_excerpt no_fuzzy (PyStr (pystr "B001122334")) (pystr "amazon")
      one_widget = Ok r
    /\ r !! "confidence" = Some (PyFloat 1.0%float)
    /\ r !! "mapping_method" = Some (PyStr (pystr "automatic")).
Proof.
  apply (exact_match_is_automatic ucd_excerpt no_fuzzy (pystr "B001122334")
           (pystr "amazon") one_widget widget).
  - reflexivity.
  - reflexivity.
Defined.

(** C3.  In every record returned by [map_sku], method [automatic] comes with
    a confidence of at least 0.9 and a product id that is not [None], and
    method [manual] comes with a confidence below 0.7. *)
Theorem method_invariant (ud : UnicodeData)
    (extractOne : list N -> list (list N) -> option (list N * Z))
    (original_sku : pyval) (marketplace : list N) (db : Session)
    (r : gmap string pyval) :
  map_sku ud extractOne original_sku marketplace db = Ok r ->
  exists confidence method,
    r !! "confidence" = Some (PyFloat confidence)
    /\ r !! "mapping_method" = Some (PyStr method)
    /\ (method = pystr "automatic" ->
        py_ge confidence 0.9%float = true
        /\ exists id, r !! "product_id" = Some (PyStr id))
    /\ (method = pystr "manual" -> PrimFloat.ltb confidence 0.7%float = true).
Proof.
  intros (s & existing & -> & _ & ->)%map_sku_ok.
  match goal with
  | |- context [mapping_result ?o ?m ?k ?mk ?c ?me ?ex] =>
      pose proof (mapping_result_lookup o m k mk c me ex) as Hl;
      pose proof (method_cases ud s m ex mk) as Hm
  end.
  cbv zeta in Hl, Hm.
  destruct Hl as (_ & _ & _ & _ & Hc & Hme & Hid & _).
  destruct Hm as (_ & Hauto & Hman).
  eexists _, _. split; [exact Hc|]. split; [exact Hme|]. split; [|exact Hman].
  intros Ha. destruct (Hauto Ha) as [Hge [p ->]]. split; [exact Hge|].
  rewrite Hid. eauto.
Qed.

Lemma method_invariant_witness :
  exists r,
    map_sku ucd_excerpt no_fuzzy (PyStr (pystr "B001122334")) (pystr "amazon")
      one_widget = Ok r
    /\ exists confidence method,
         r !! "confidence" = Some (PyFloat confidence)
         /\ r !! "mapping_method" = Some (PyStr method)
         /\ (method = pystr "automatic" ->
             py_ge confidence 0.9%float = true
             /\ exists id, r !! "product_id" = Some (PyStr id))
         /\ (method = pystr "manual" -> PrimFloat.ltb confidence 0.7%float = true).
Proof.
  eexists. split.
  - reflexivity.
  - apply (method_invariant ucd_excerpt no_fuzzy (PyStr (pystr "B001122334"))
             (pystr "amazon") one_widget).
    reflexivity.
Defined.




(** ** Batch mapping *)

Lemma failure_record_lookup sku_data e :
  let r := failure_record sku_data e in
  r !! "original_sku" = Some (dict_get sku_data "sku")
  /\ r !! "error" = Some (PyStr (exn_str e))
  /\ r !! "confidence" = Some (PyFloat 0.0%float)
  /\ r !! "mapping_method" = Some (PyStr (pystr "failed")).
Proof. cbv zeta. unfold failure_record. repeat split. Qed.

Lemma lookup_List_map {A B} (f : A -> B) (l : list A) (i : nat) :
  List.map f l !! i = f <$> l !! i.
Proof. revert i. induction l as [|x l IH]; intros [|i]; simpl; auto. Qed.

Section Batch.
Variable ud : UnicodeData.
Variable extractOne : list N -> list (list N) -> option (list N * Z).

(** An item maps without raising when it has a [sku] that [map_sku] accepts;
    its record is the computed one updated with the item. *)
Lemma batch_item_ok sku_data marketplace db r :
  batch_item ud extractOne sku_data marketplace db = Ok r <->
  exists sku computed,
    sku_data !! "sku" = Some sku
    /\ map_sku ud extractOne sku marketplace db = Ok computed
    /\ r = sku_data ∪ computed.
Proof.
  unfold batch_item, dict_item. split.
  - destruct (sku_data !! "sku") as [sku|]; simpl; [|discriminate].
    destruct (map_sku _ _ _ _ _) as [computed|e] eqn:Hm; simpl; [|discriminate].
    intros [= <-]. by exists sku, computed.
  - intros (sku & computed & -> & Hm & ->). simpl. by rewrite Hm.
Qed.

(** The loop appends the record of every item, in order, to what it
    starts from. *)
Lemma batch_loop_records sku_list marketplace db : forall results,
  batch_loop ud extractOne sku_list marketplace db results
  = results ++ List.map (batch_record ud extractOne marketplace db) sku_list.
Proof.
  induction sku_list as [|sku_data rest IH]; intros results; cbn [batch_loop List.map].
  - by rewrite app_nil_r.
  - rewrite IH, <- app_assoc. reflexivity.
Qed.

Lemma batch_map_skus_records sku_list marketplace db :
  batch_map_skus ud extractOne sku_list marketplace db
  = List.map (batch_record ud extractOne marketplace db) sku_list.
Proof. unfold batch_map_skus. by rewrite batch_loop_records. Qed.

Lemma batch_lookup sku_list marketplace db k :
  batch_map_skus ud extractOne sku_list marketplace db !! k
  = batch_record ud extractOne marketplace db <$> sku_list !! k.
Proof. rewrite batch_map_skus_records. apply lookup_List_map. Qed.

(** An item with a string [sku] raises exactly when its lookup does. *)
Lemma batch_record_str sku_data s marketplace db :
  sku_data !! "sku" = Some (PyStr s) ->
  batch_record ud extractOne marketplace db sku_data
  = match map_sku ud extractOne (PyStr s) marketplace db with
    | Ok computed => sku_data ∪ computed
    | Raise e => failure_record sku_data e
    end.
Proof.
  intros Hs. unfold batch_record, batch_item, dict_item. rewrite Hs.
  cbn [mbind result_bind].
  by destruct (map_sku ud extractOne (PyStr s) marketplace db).
Qed.

Lemma batch_item_not_str sku_data marketplace db :
  sku_data !! "sku" = None
  \/ (exists v, sku_data !! "sku" = Some v /\ none_or_number v = true) ->
  exists e, batch_item ud extractOne sku_data marketplace db = Raise e.
Proof.
  unfold batch_item, dict_item. intros [->|(v & -> & Hv)]; [by eexists|].
  cbn [mbind result_bind].
  destruct (map_sku_not_str ud extractOne v marketplace db) as [e ->];
    [|by eexists].
  intros s ->. discriminate Hv.
Qed.

End Batch.

(** C5 (as amended).  A batch of N items gives N records in input order;
    the record of an item depends on that item alone, so the other records
    are what they would be without it; and when mapping an item raises its
    record has method [failed], confidence 0.0, the error message and the
    item's [sku] if any.  An item without a [sku] key, or whose [sku] is
    [None] or a number, raises.  An item whose [sku] is a string, empty and
    malformed ones included, raises only when the catalog lookup of its
    mapped SKU raises, with the error of the lookup; otherwise its record
    is the computed mapping record, which has no [error] and a method
    among [automatic], [ai_suggested] and [manual], updated with the item's
    fields. *)
Theorem batch_isolation (ud : UnicodeData)
    (extractOne : list N -> list (list N) -> option (list N * Z))
    (sku_list : list (gmap string pyval)) (marketplace : list N) (db : Session) :
  let results := batch_map_skus ud extractOne sku_list marketplace db in
  length results = length sku_list
  /\ (forall k sku_data, sku_list !! k = Some sku_data ->
        results !! k = Some (batch_record ud extractOne marketplace db sku_data))
  /\ (forall before sku_data after, sku_list = before ++ sku_data :: after ->
        results = batch_map_skus ud extractOne before marketplace db
                  ++ batch_record ud extractOne marketplace db sku_data
                  :: batch_map_skus ud extractOne after marketplace db)
  /\ (forall sku_data e,
        batch_item ud extractOne sku_data marketplace db = Raise e ->
        batch_record ud extractOne marketplace db sku_data !! "mapping_method"
        = Some (PyStr (pystr "failed"))
        /\ batch_record ud extractOne marketplace db sku_data !! "confidence"
           = Some (PyFloat 0.0%float)
        /\ batch_record ud extractOne marketplace db sku_data !! "error"
           = Some (PyStr (exn_str e))
        /\ batch_record ud extractOne marketplace db sku_data !! "original_sku"
           = Some (dict_get sku_data "sku"))
  /\ (forall sku_data,
        sku_data !! "sku" = None
        \/ (exists v, sku_data !! "sku" = Some v /\ none_or_number v = true) ->
        exists e, batch_item ud extractOne sku_data marketplace db = Raise e)
  /\ (forall sku_data s,
        sku_data !! "sku" = Some (PyStr s) ->
        match _find_existing_product extractOne
                (_apply_marketplace_rules ud (_clean_sku ud s) marketplace)
                marketplace db with
        | Raise e =>
            batch_item ud extractOne sku_data marketplace db = Raise e
        | Ok _ =>
            exists computed method,
              map_sku ud extractOne (PyStr s) marketplace db = Ok computed
              /\ batch_record ud extractOne marketplace db sku_data
                 = sku_data ∪ computed
              /\ computed !! "error" = None
              /\ computed !! "mapping_method" = Some (PyStr method)
              /\ In method methods_of_map
        end).
Proof.
  cbv zeta. rewrite !batch_map_skus_records.
  split; [apply length_map|]. split; [|split; [|split; [|split]]].
  - intros k sku_data Hk. by rewrite lookup_List_map, Hk.
  - intros before sku_data after ->.
    rewrite !batch_map_skus_records. by rewrite List.map_app.
  - intros sku_data e He. unfold batch_record. rewrite He.
    destruct (failure_record_lookup sku_data e) as (H1 & H2 & H3 & H4). auto.
  - intros sku_data Hbad. by apply batch_item_not_str.
  - intros sku_data s Hs.
    pose proof (batch_record_str ud extractOne sku_data s marketplace db Hs)
      as Hrec.
    unfold batch_item, dict_item. rewrite Hs. cbn [mbind result_bind].
    rewrite map_sku_str_eq in *. cbv zeta in *.
    destruct (_find_existing_product _ _ _ _) as [existing|e]; [|reflexivity].
    eexists _, _. split; [reflexivity|]. split; [exact Hrec|].
    split; [reflexivity|]. split; [reflexivity|].
    apply method_cases.
Qed.

Lemma batch_isolation_witness :
  length (batch_map_skus ucd_excerpt no_fuzzy
            [item_asin; item_without_sku; item_empty_sku] (pystr "amazon") one_widget)
  = 3
  /\ batch_record ucd_excerpt no_fuzzy (pystr "amazon") one_widget item_without_sku
       !! "mapping_method" = Some (PyStr (pystr "failed"))
  /\ batch_record ucd_excerpt no_fuzzy (pystr "amazon") one_widget item_without_sku
       !! "confidence" = Some (PyFloat 0.0%float)
  /\ batch_record ucd_excerpt no_fuzzy (pystr "amazon") one_widget item_without_sku
       !! "error" = Some (PyStr (exn_str (KeyError "sku")))
  /\ batch_record ucd_excerpt no_fuzzy (pystr "amazon") one_widget item_without_sku
       !! "original_sku" = Some (dict_get item_without_sku "sku")
  /\ (exists e, batch_item ucd_excerpt no_fuzzy item_without_sku (pystr "amazon")
                  one_widget = Raise e)
  /\ (exists computed method,
        map_sku ucd_excerpt no_fuzzy (PyStr []) (pystr "amazon") one_widget
        = Ok computed
        /\ batch_record ucd_excerpt no_fuzzy (pystr "amazon") one_widget
             item_empty_sku = item_empty_sku ∪ computed
        /\ computed !! "error" = None
        /\ computed !! "mapping_method" = Some (PyStr method)
        /\ In method methods_of_map).
Proof.
  destruct (batch_isolation ucd_excerpt no_fuzzy
              [item_asin; item_without_sku; item_empty_sku] (pystr "amazon") one_widget)
    as (Hlen & _ & _ & Hfail & Hbad & Hstr).
  split; [exact Hlen|].
  destruct (Hfail item_without_sku (KeyError "sku") eq_refl)
    as (H1 & H2 & H3 & H4).
  split; [exact H1|]. split; [exact H2|]. split; [exact H3|]. split; [exact H4|].
  split; [apply Hbad; by left|].
  apply (Hstr item_empty_sku [] eq_refl).
Defined.

(** C5 as stated fails on its own example of a failure: an item whose SKU is
    the empty string is mapped like any other and its record is not marked
    [failed]. *)
Lemma empty_sku_in_batch_not_failed :
  match batch_map_skus ucd_excerpt no_fuzzy [item_empty_sku] (pystr "amazon")
          empty_catalog with
  | [r] =>
      r !! "mapping_method" = Some (PyStr (pystr "manual"))
      /\ r !! "confidence" = Some (PyFloat 0.6%float)
      /\ r !! "error" = None
      /\ r !! "mapping_method" <> Some (PyStr (pystr "failed"))
  | _ => False
  end.
Proof. vm_compute. repeat split; discriminate. Qed.

(** C10.  For a batch item that maps without raising, the record of the
    batch holds every key of the input item with the item's value, also
    where [map_sku] computed a field of that name, and the computed value
    under every other key. *)
Theorem batch_copies_item_fields (ud : UnicodeData)
    (extractOne : list N -> list (list N) -> option (list N * Z))
    (sku_list : list (gmap string pyval)) (marketplace : list N) (db : Session)
    (k : nat) (sku_data computed : gmap string pyval) (sku : pyval) :
  sku_list !! k = Some sku_data ->
  sku_data !! "sku" = Some sku ->
  map_sku ud extractOne sku marketplace db = Ok computed ->
  exists r,
    batch_map_skus ud extractOne sku_list marketplace db !! k = Some r
    /\ (forall key v, sku_data !! key = Some v -> r !! key = Some v)
    /\ (forall key, sku_data !! key = None -> r !! key = computed !! key).
Proof.
  intros Hk Hsku Hmap. exists (sku_data ∪ computed). split; [|split].
  - rewrite batch_lookup, Hk. simpl. f_equal. unfold batch_record.
    assert (H : batch_item ud extractOne sku_data marketplace db
                = Ok (sku_data ∪ computed))
      by (apply batch_item_ok; eauto).
    by rewrite H.
  - intros key v Hv. by apply lookup_union_Some_l.
  - intros key Hnone. by apply lookup_union_r.
Qed.

Lemma batch_copies_item_fields_witness :
  exists r,
    batch_map_skus ucd_excerpt no_fuzzy [item_asin; item_with_confidence]
      (pystr "amazon") empty_catalog !! 1 = Some r
    /\ r !! "confidence" = Some (PyFloat 5.0%float)
    /\ r !! "sku" = Some (PyStr (pystr "X"))
    /\ r !! "mapped_sku" = Some (PyStr (pystr "X")).
Proof.
  destruct (batch_copies_item_fields ucd_excerpt no_fuzzy
              [item_asin; item_with_confidence] (pystr "amazon") empty_catalog 1
              item_with_confidence
              (mapping_result (PyStr (pystr "X")) (pystr "X") (pystr "WMS-AMA-58")
                 (pystr "amazon") 0.6%float (pystr "manual") None)
              (PyStr (pystr "X")))
    as (r & Hr & Hcopy & Hkeep).
  - reflexivity.
  - reflexivity.
  - reflexivity.
  - exists r. split; [exact Hr|]. split; [|split].
    + apply Hcopy. reflexivity.
    + apply Hcopy. reflexivity.
    + rewrite Hkeep; reflexivity.
Defined.

(** C7 (as amended).  In every record returned by [map_sku] the confidence
    lies in [0,1] and the method is one of the four; a failure record of the
    batch has confidence 0.0 and method [failed]; and in the record of a
    batch item that maps without raising each of the two fields is in range
    unless the input item itself has a key of that name (its value then
    replaces the computed one). *)
Theorem confidence_and_method_ranges (ud : UnicodeData)
    (extractOne : list N -> list (list N) -> option (list N * Z))
    (marketplace : list N) (db : Session) :
  (forall original_sku r,
      map_sku ud extractOne original_sku marketplace db = Ok r ->
      exists c m,
        r !! "confidence" = Some (PyFloat c) /\ in_unit_interval c = true
        /\ r !! "mapping_method" = Some (PyStr m) /\ In m all_methods)
  /\ (forall sku_data,
        match batch_item ud extractOne sku_data marketplace db with
        | Raise _ =>
            batch_record ud extractOne marketplace db sku_data !! "confidence"
            = Some (PyFloat 0.0%float)
            /\ in_unit_interval 0.0%float = true
            /\ batch_record ud extractOne marketplace db sku_data !! "mapping_method"
               = Some (PyStr (pystr "failed"))
            /\ In (pystr "failed") all_methods
        | Ok _ =>
            (sku_data !! "confidence" = None ->
             exists c,
               batch_record ud extractOne marketplace db sku_data !! "confidence"
               = Some (PyFloat c)
               /\ in_unit_interval c = true)
            /\ (sku_data !! "mapping_method" = None ->
                exists m,
                  batch_record ud extractOne marketplace db sku_data
                    !! "mapping_method" = Some (PyStr m)
                  /\ In m all_methods)
        end).
Proof.
  split.
  - intros v r Hmap.
    destruct (map_sku_ranges ud extractOne _ _ _ _ Hmap) as (c & m & H1 & H2 & H3 & H4).
    exists c, m. repeat split; auto. unfold all_methods. apply in_or_app. by left.
  - intros sku_data. unfold batch_record.
    destruct (batch_item _ _ _ _ _) as [r|e] eqn:Hitem.
    + apply batch_item_ok in Hitem as (sku & computed & Hsku & Hmap & ->).
      destruct (map_sku_ranges ud extractOne _ _ _ _ Hmap)
        as (c & m & H1 & H2 & H3 & H4).
      split; intros Hnone.
      * exists c. by rewrite lookup_union_r.
      * exists m. rewrite lookup_union_r by done. split; [done|].
        unfold all_methods. apply in_or_app. by left.
    + destruct (failure_record_lookup sku_data e) as (_ & _ & H3 & H4).
      repeat split; auto. vm_compute. tauto.
Qed.

Lemma confidence_and_method_ranges_witness :
  exists r,
    map_sku ucd_excerpt no_fuzzy (PyStr (pystr "B001122334")) (pystr "amazon")
      one_widget = Ok r
    /\ exists c m,
         r !! "confidence" = Some (PyFloat c) /\ in_unit_interval c = true
         /\ r !! "mapping_method" = Some (PyStr m) /\ In m all_methods.
Proof.
  destruct (confidence_and_method_ranges ucd_excerpt no_fuzzy (pystr "amazon")
              one_widget) as [Hmap _].
  eexists. split.
  - reflexivity.
  - apply (Hmap (PyStr (pystr "B001122334"))). reflexivity.
Defined.

(** C7 as stated fails for batch items: an input item that carries a
    [confidence] of 5.0 gets it back in its record. *)
Lemma batch_confidence_overwritten :
  match batch_map_skus ucd_excerpt no_fuzzy [item_with_confidence] (pystr "amazon")
          empty_catalog with
  | [r] =>
      r !! "confidence" = Some (PyFloat 5.0%float)
      /\ in_unit_interval 5.0%float = false
      /\ r !! "mapping_method" = Some (PyStr (pystr "manual"))
  | _ => False
  end.
Proof. vm_compute. repeat split. Qed.

(** ** The batch validator *)

Section Validator.
Variable ud : UnicodeData.

Lemma low_confidence_ok mapping :
  mapping_record mapping = true -> low_confidence mapping = Ok (below_06 mapping).
Proof.
  unfold mapping_record, below_06, low_confidence.
  intros [_ H]%andb_true_iff.
  by destruct (mapping !! "confidence") as [[| | | |]|].
Qed.

(** One turn of the loop files the record under valid or invalid and warns
    about a valid one of low confidence. *)
Lemma validate_step_spec v i w mapping :
  mapping_record mapping = true ->
  validate_step ud (v, i, w) mapping
  = Ok (v ++ List.filter (passes_validation ud) [mapping],
        i ++ List.filter (fun m => negb (passes_validation ud m)) [mapping],
        w ++ List.map warning_of
               (List.filter below_06 (List.filter (passes_validation ud) [mapping]))).
Proof.
  intros Hrec. pose proof (low_confidence_ok _ Hrec) as Hlow.
  apply andb_true_iff in Hrec as [Hsku _].
  unfold validate_step. fold (stated_marketplace mapping).
  cbn [List.filter List.map].
  unfold passes_validation, warning_of.
  destruct (dict_get mapping "original_sku") as [| | | |sku] eqn:Ho;
    try (apply negb_true_iff in Hsku; rewrite Hsku);
    cbn [negb List.filter List.map]; rewrite ?app_nil_r; try reflexivity.
  destruct (validate_sku ud sku (stated_marketplace mapping));
    cbn [negb List.filter List.map]; rewrite ?app_nil_r; [|reflexivity].
  rewrite Hlow. cbn [mbind result_bind].
  destruct (below_06 mapping); cbn [List.map]; rewrite ?Ho, ?app_nil_r; reflexivity.
Qed.

Lemma validate_loop_spec mappings : forall v i w,
  Forall (fun m => mapping_record m = true) mappings ->
  validate_loop ud mappings (v, i, w)
  = Ok (v ++ List.filter (passes_validation ud) mappings,
        i ++ List.filter (fun m => negb (passes_validation ud m)) mappings,
        w ++ List.map warning_of
               (List.filter below_06 (List.filter (passes_validation ud) mappings))).
Proof.
  induction mappings as [|m ms IH]; intros v i w Hall.
  { simpl. by rewrite !app_nil_r. }
  inversion Hall as [|? ? Hm Hms]; subst.
  cbn [validate_loop]. rewrite (validate_step_spec _ _ _ _ Hm).
  cbn [mbind result_bind]. rewrite IH by done.
  change (m :: ms) with ([m] ++ ms).
  rewrite !List.filter_app, !List.map_app, <- !app_assoc. reflexivity.
Qed.

End Validator.

(** C8.  On every sequence of mapping records [validate_mapping_batch]
    returns a report: its valid records are those whose [original_sku]
    passes format validation for their stated marketplace, in input order,
    the others are its invalid records; every valid record of confidence
    below 0.6 has its warning and stays among the valid ones; and the
    success rate is the number of valid records divided by the number of
    records, and 0 (without a division) for the empty sequence. *)
Theorem validate_mapping_batch_report (ud : UnicodeData)
    (mappings : list (gmap string pyval)) :
  Forall (fun m => mapping_record m = true) mappings ->
  exists report,
    validate_mapping_batch ud mappings = Ok report
    /\ valid report = List.filter (passes_validation ud) mappings
    /\ invalid report = List.filter (fun m => negb (passes_validation ud m)) mappings
    /\ warnings report = List.map warning_of (List.filter below_06 (valid report))
    /\ total_processed report = length mappings
    /\ success_rate report
       = match mappings with
         | [] => PyInt 0
         | _ => PyFloat (float_of_len (length (valid report))
                         / float_of_len (length mappings))%float
         end.
Proof.
  intros Hall. unfold validate_mapping_batch.
  rewrite (validate_loop_spec ud mappings [] [] [] Hall).
  cbn [mbind result_bind app].
  eexists. split; [reflexivity|]. cbn [valid invalid warnings total_processed success_rate].
  repeat split.
Qed.

Lemma validate_mapping_batch_report_witness :
  exists report,
    validate_mapping_batch ucd_excerpt [record_low; record_high; record_bad] = Ok report
    /\ valid report = [record_low; record_high]
    /\ invalid report = [record_bad]
    /\ warnings report = [pystr "Low confidence mapping for SKU: B001122334"]
    /\ total_processed report = 3
    /\ success_rate report = PyFloat (float_of_len 2 / float_of_len 3)%float.
Proof.
  destruct (validate_mapping_batch_report ucd_excerpt
              [record_low; record_high; record_bad])
    as (report & Hrep & Hv & Hi & Hw & Ht & Hs).
  - repeat constructor.
  - exists report. split; [exact Hrep|].
    rewrite Hw, Hs, Hv, Hi, Ht. repeat split.
Defined.

Example validate_empty_batch :
  validate_mapping_batch ucd_excerpt []
  = Ok {| valid := []; invalid := []; warnings := [];
          total_processed := 0; success_rate := PyInt 0 |}.
Proof. reflexivity. Qed.

(** The scenario of the specification: ten records, three of invalid format,
    two of the seven valid ones below 0.6. *)
Example validate_ten_records :
  match validate_mapping_batch ucd_excerpt
          ([record_low; record_bad; record_high; record_high; record_bad;
            record_low; record_high; record_high; record_bad; record_high]) with
  | Ok report =>
      length (valid report) = 7 /\ length (invalid report) = 3
      /\ length (warnings report) = 2
      /\ success_rate report = PyFloat 0.7%float
  | Raise _ => False
  end.
Proof. vm_compute. repeat split. Qed.
(** * Further properties of the service *)

(** ** More on the normalizer *)

Section StripProps.
Variable p : N -> bool.

Lemma lstrip_head s :
  match lstrip p s with [] => True | c :: _ => p c = false end.
Proof.
  induction s as [|c s IH]; simpl; [done|].
  destruct (p c) eqn:Hc; [exact IH | exact Hc].
Qed.

Lemma lstrip_fixed s :
  match s with [] => True | c :: _ => p c = false end -> lstrip p s = s.
Proof. destruct s as [|c s]; simpl; [done|]. by intros ->. Qed.

(** What [lstrip] removes is a prefix. *)
Lemma lstrip_suffix s : exists w, s = w ++ lstrip p s.
Proof.
  induction s as [|c s [w Hw]]; simpl; [by exists []|].
  destruct (p c); [|by exists []].
  exists (c :: w). simpl. by f_equal.
Qed.

Lemma rev_rstrip s : rev (rstrip p s) = lstrip p (rev s).
Proof. unfold rstrip. apply rev_involutive. Qed.

Lemma rstrip_prefix s : exists w, s = rstrip p s ++ w.
Proof.
  destruct (lstrip_suffix (rev s)) as [w Hw].
  exists (rev w). unfold rstrip.
  rewrite <- rev_app_distr, <- Hw. by rewrite rev_involutive.
Qed.

(** A stripped string neither starts nor ends with a stripped character. *)
Lemma strip_ends s :
  match strip p s with [] => True | c :: _ => p c = false end
  /\ match rev (strip p s) with [] => True | c :: _ => p c = false end.
Proof.
  unfold strip. split.
  - destruct (rstrip_prefix (lstrip p s)) as [w Hw].
    pose proof (lstrip_head s) as Hh.
    destruct (rstrip p (lstrip p s)) as [|c u]; [done|].
    rewrite Hw in Hh. exact Hh.
  - rewrite rev_rstrip. apply lstrip_head.
Qed.

Lemma strip_idempotent s : strip p (strip p s) = strip p s.
Proof.
  destruct (strip_ends s) as [Hh Hl].
  set (u := strip p s) in *. unfold strip.
  rewrite (lstrip_fixed u Hh). unfold rstrip.
  rewrite (lstrip_fixed (rev u) Hl). apply rev_involutive.
Qed.

Lemma strip_between c s d :
  p c = false -> p d = false -> strip p (c :: s ++ [d]) = c :: s ++ [d].
Proof.
  intros Hc Hd. unfold strip. simpl lstrip. rewrite Hc. unfold rstrip.
  change (c :: s ++ [d]) with ((c :: s) ++ [d]).
  rewrite rev_app_distr. simpl lstrip. rewrite Hd.
  rewrite <- (rev_app_distr (c :: s) [d]) at 1.
  by rewrite rev_involutive.
Qed.

End StripProps.

Section CleanMore.
Variable ud : UnicodeData.

Lemma sub_space_runs_skip b ws s :
  Forall (fun c => py_isspace ud c = true) ws ->
  sub_space_runs ud true (ws ++ s) = sub_space_runs ud true s
  /\ (ws <> [] ->
      sub_space_runs ud b (ws ++ s)
      = (if b then [] else [hyphen]) ++ sub_space_runs ud true s).
Proof.
  intros Hws. split.
  - induction Hws as [|c ws Hc Hws IH]; simpl; [done | by rewrite Hc].
  - destruct Hws as [|c ws Hc Hws]; [done|]. intros _. simpl. rewrite Hc.
    assert (Hskip : sub_space_runs ud true (ws ++ s) = sub_space_runs ud true s)
      by (induction Hws as [|c' ws' Hc' Hws' IH]; simpl; [done | by rewrite Hc']).
    rewrite Hskip. by destruct b.
Qed.

Lemma sub_space_runs_keep b a s :
  Forall (fun c => py_isspace ud c = false) a -> a <> [] ->
  sub_space_runs ud b (a ++ s) = a ++ sub_space_runs ud false s.
Proof.
  intros Ha. revert b. induction Ha as [|c a Hc Ha IH]; intros b Hne; [done|].
  simpl. rewrite Hc. f_equal.
  destruct a as [|c' a']; [done|]. by apply IH.
Qed.

Lemma sku_chars_fixed_parts t :
  Forall (fun c => sku_char c = true) t ->
  Forall (fun c => py_isspace ud c = false) t
  /\ Forall (fun c => is_quote c = false) t
  /\ Forall (fun c => word_or_hyphen ud c = true) t
  /\ Forall (fun c => py_upper_char ud c = [c]) t.
Proof.
  intros Ht. repeat split;
    (eapply Forall_impl; [exact Ht | intros c Hc; apply (sku_char_fixed ud), Hc]).
Qed.

End CleanMore.

(** X1.  On ASCII input the output of the normalizer is made of the
    characters [A-Z], [0-9], underscore and hyphen only. *)
Theorem clean_sku_ascii_alphabet (ud : UnicodeData) (raw : list N) :
  all_ascii raw = true ->
  Forall (fun c => sku_char c = true) (_clean_sku ud raw).
Proof.
  intros Hraw. pose proof (clean_sku_chars ud raw Hraw) as H.
  apply List.Forall_forall. intros c Hc.
  rewrite List.Forall_forall in H. exact (H c Hc).
Qed.

Lemma clean_sku_ascii_alphabet_witness :
  all_ascii (pystr " sku#42/a_b ") = true
  /\ Forall (fun c => sku_char c = true) (_clean_sku ucd_excerpt (pystr " sku#42/a_b ")).
Proof.
  split; [reflexivity|].
  apply (clean_sku_ascii_alphabet ucd_excerpt (pystr " sku#42/a_b ")).
  reflexivity.
Defined.

(** X2.  The normal forms of the normalizer: an ASCII string is returned
    unchanged exactly when it is made of [A-Z], [0-9], underscore and hyphen
    only. *)
Theorem clean_sku_normal_forms (ud : UnicodeData) (sku : list N) :
  all_ascii sku = true ->
  (_clean_sku ud sku = sku <-> Forall (fun c => sku_char c = true) sku).
Proof.
  intros Hascii. split.
  - intros Heq. rewrite <- Heq. exact (clean_sku_chars ud sku Hascii).
  - intros Hchars. exact (clean_sku_fixed ud sku Hchars).
Qed.

Lemma clean_sku_normal_forms_witness :
  all_ascii (pystr "AB-12_C") = true
  /\ (_clean_sku ucd_excerpt (pystr "AB-12_C") = pystr "AB-12_C"
      <-> Forall (fun c => sku_char c = true) (pystr "AB-12_C")).
Proof.
  split; [reflexivity|].
  apply (clean_sku_normal_forms ucd_excerpt (pystr "AB-12_C")).
  reflexivity.
Defined.

(** X3.  A run of whitespace between two clean parts of a SKU becomes one
    hyphen: [a], whitespace, [b] is normalized to [a-b]. *)
Theorem clean_sku_joins_parts (ud : UnicodeData) (a ws b : list N) :
  Forall (fun c => sku_char c = true) a -> a <> [] ->
  Forall (fun c => sku_char c = true) b -> b <> [] ->
  Forall (fun c => py_isspace ud c = true) ws -> ws <> [] ->
  _clean_sku ud (a ++ ws ++ b) = a ++ [hyphen] ++ b.
Proof.
  intros Ha Hane Hb Hbne Hws Hwsne.
  destruct (sku_chars_fixed_parts ud a Ha) as (Ha1 & Ha2 & Ha3 & Ha4).
  destruct (sku_chars_fixed_parts ud b Hb) as (Hb1 & Hb2 & Hb3 & Hb4).
  destruct a as [|c a']; [done|].
  destruct (exists_last Hbne) as (b' & d & ->).
  assert (Hc : sku_char c = true) by (by inversion Ha).
  assert (Hd : sku_char d = true).
  { apply Forall_app in Hb as [_ Hd]. by inversion Hd. }
  destruct (sku_char_fixed ud c Hc) as (Hc1 & Hc2 & _).
  destruct (sku_char_fixed ud d Hd) as (Hd1 & Hd2 & _).
  unfold _clean_sku. cbn [app]. cbv zeta.
  replace (c :: a' ++ ws ++ b' ++ [d]) with (c :: (a' ++ ws ++ b') ++ [d])
    by (by rewrite <- !app_assoc).
  rewrite (strip_between _ c _ d Hc1 Hd1), (strip_between _ c _ d Hc2 Hd2).
  replace (c :: (a' ++ ws ++ b') ++ [d]) with ((c :: a') ++ ws ++ b' ++ [d])
    by (simpl; by rewrite <- !app_assoc).
  rewrite (sub_space_runs_keep ud false (c :: a') _ Ha1) by done.
  destruct (sub_space_runs_skip ud false ws (b' ++ [d]) Hws) as [_ Hskip].
  rewrite (Hskip Hwsne). cbn [app].
  assert (Hkeep : sub_space_runs ud true (b' ++ [d]) = b' ++ [d]).
  { rewrite <- (app_nil_r (b' ++ [d])) at 1.
    rewrite (sub_space_runs_keep ud true (b' ++ [d]) [] Hb1) by (by destruct b').
    simpl. by rewrite app_nil_r. }
  rewrite Hkeep.
  match goal with
  | |- str_upper ud (remove_special ud ?t) = _ =>
      assert (Hall : Forall (fun c => sku_char c = true) t)
  end.
  { apply (Forall_app _ (c :: a')). split; [done|]. by constructor. }
  destruct (sku_chars_fixed_parts ud _ Hall) as (_ & _ & H3 & H4).
  rewrite (remove_special_all ud _ H3). by apply str_upper_fixed.
Qed.

Lemma clean_sku_joins_parts_witness :
  _clean_sku ucd_excerpt (pystr "AB" ++ [32%N; 9%N; 0xA0%N] ++ pystr "12")
  = pystr "AB" ++ [hyphen] ++ pystr "12".
Proof.
  apply (clean_sku_joins_parts ucd_excerpt (pystr "AB") [32%N; 9%N; 0xA0%N]
           (pystr "12")).
  - repeat constructor.
  - discriminate.
  - repeat constructor.
  - discriminate.
  - repeat constructor.
  - discriminate.
Defined.

(** ** Format validation *)

Lemma match_to_end_no_newline r s :
  match rev s with [] => True | c :: _ => c <> newline end ->
  match_to_end r s = fullmatch r s.
Proof.
  unfold match_to_end. destruct (rev s) as [|c s']; intros H.
  - apply orb_false_r.
  - destruct (N.eqb_spec c newline); [done|]. apply orb_false_r.
Qed.

Lemma fullmatch_Seq_Cls p r s :
  fullmatch (Seq (Cls p) r) s
  = match s with [] => false | c :: s' => p c && fullmatch r s' end.
Proof.
  destruct s as [|c s']; simpl; [done|].
  destruct (p c); [apply fullmatch_Seq_Eps | apply fullmatch_Seq_Void].
Qed.

Section ValidateProps.
Variable ud : UnicodeData.

(** [validate_sku] looks at the stripped, upper-cased SKU only. *)
Lemma validate_sku_unfold sku marketplace :
  validate_sku ud sku marketplace
  = match strip (py_isspace ud) sku with
    | [] => false
    | t =>
        match marketplace with
        | Some ((_ :: _) as m) =>
            match assoc m (patterns ud) with
            | Some pattern => match_to_end pattern (str_upper ud t)
            | None =>
                existsb (fun kp => match_to_end (snd kp) (str_upper ud t)) (patterns ud)
            end
        | _ => existsb (fun kp => match_to_end (snd kp) (str_upper ud t)) (patterns ud)
        end
    end.
Proof.
  unfold validate_sku. destruct sku as [|c s]; [reflexivity|].
  by destruct (strip (py_isspace ud) (c :: s)).
Qed.

Lemma str_upper_ascii s :
  all_ascii s = true -> str_upper ud s = List.map ascii_upper s.
Proof.
  unfold all_ascii, str_upper, py_upper_char.
  induction s as [|c s IH]; simpl; [done|].
  intros [Hc Hs]%andb_true_iff. by rewrite Hc, IH.
Qed.

Lemma ascii_upper_facts c :
  is_ascii c = true ->
  is_ascii (ascii_upper c) = true
  /\ ascii_upper (ascii_upper c) = ascii_upper c
  /\ py_isspace ud (ascii_upper c) = py_isspace ud c
  /\ (py_isspace ud c = false -> ascii_upper c <> newline)
  /\ (is_upper_az (ascii_upper c) || is_digit (ascii_upper c)) = ascii_isalnum c
  /\ is_digit (ascii_upper c) = is_digit c
  /\ shopify_char (ascii_upper c) = shopify_char c.
Proof.
  intros Hc.
  pose proof (ascii_cases
    (fun c => is_ascii (ascii_upper c)
              && (ascii_upper (ascii_upper c) =? ascii_upper c)%N
              && eqb (py_isspace ud (ascii_upper c)) (py_isspace ud c)
              && (py_isspace ud c || negb (ascii_upper c =? newline)%N)
              && eqb (is_upper_az (ascii_upper c) || is_digit (ascii_upper c))
                     (ascii_isalnum c)
              && eqb (is_digit (ascii_upper c)) (is_digit c)
              && eqb (shopify_char (ascii_upper c)) (shopify_char c))
    eq_refl c Hc) as H.
  cbv beta in H.
  repeat (apply andb_true_iff in H as [H ?]).
  repeat match goal with
         | H : eqb _ _ = true |- _ => apply eqb_prop in H
         | H : (_ =? _)%N = true |- _ => apply N.eqb_eq in H
         end.
  repeat split; auto.
  intros Hsp. match goal with H : _ || negb _ = true |- _ => rewrite Hsp in H;
    simpl in H; apply negb_true_iff, N.eqb_neq in H; exact H end.
Qed.

Lemma all_ascii_Forall s :
  all_ascii s = true <-> Forall (fun c => is_ascii c = true) s.
Proof.
  unfold all_ascii. rewrite List.forallb_forall, List.Forall_forall. done.
Qed.

Lemma all_ascii_strip p s : all_ascii s = true -> all_ascii (strip p s) = true.
Proof. rewrite !all_ascii_Forall. apply strip_Forall. Qed.

Lemma lstrip_map_upper s :
  all_ascii s = true ->
  lstrip (py_isspace ud) (List.map ascii_upper s)
  = List.map ascii_upper (lstrip (py_isspace ud) s).
Proof.
  induction s as [|c s IH]; simpl; [done|].
  intros [Hc Hs]%andb_true_iff.
  destruct (ascii_upper_facts c Hc) as (_ & _ & -> & _).
  destruct (py_isspace ud c); [by apply IH | done].
Qed.

Lemma all_ascii_rev s : all_ascii (rev s) = all_ascii s.
Proof.
  apply eq_true_iff_eq. rewrite !all_ascii_Forall. split; intros H.
  - rewrite <- (rev_involutive s). by apply Forall_rev.
  - by apply Forall_rev.
Qed.

Lemma strip_map_upper s :
  all_ascii s = true ->
  strip (py_isspace ud) (List.map ascii_upper s)
  = List.map ascii_upper (strip (py_isspace ud) s).
Proof.
  intros Hs. unfold strip, rstrip.
  rewrite (lstrip_map_upper s Hs), <- List.map_rev, lstrip_map_upper.
  - by rewrite List.map_rev.
  - rewrite all_ascii_rev, all_ascii_Forall. apply lstrip_Forall.
    by apply all_ascii_Forall.
Qed.

Lemma map_upper_idempotent s :
  all_ascii s = true ->
  List.map ascii_upper (List.map ascii_upper s) = List.map ascii_upper s
  /\ all_ascii (List.map ascii_upper s) = true.
Proof.
  induction s as [|c s IH]; simpl; [done|].
  intros [Hc Hs]%andb_true_iff.
  destruct (ascii_upper_facts c Hc) as (Ha & Hi & _).
  destruct (IH Hs) as [IH1 IH2]. by rewrite Hi, IH1, Ha, IH2.
Qed.

End ValidateProps.

(** X4.  Format validation ignores whitespace around the SKU: the stripped
    SKU is valid exactly when the SKU is (a blank SKU never is). *)
Theorem validate_sku_ignores_outer_space (ud : UnicodeData) (sku : list N)
    (marketplace : option (list N)) :
  validate_sku ud (strip (py_isspace ud) sku) marketplace
  = validate_sku ud sku marketplace
  /\ (strip (py_isspace ud) sku = [] -> validate_sku ud sku marketplace = false).
Proof.
  rewrite !validate_sku_unfold, strip_idempotent. split; [reflexivity|].
  by intros ->.
Qed.

(** X5.  Format validation ignores the case of ASCII letters: the
    upper-cased SKU is valid exactly when the SKU is. *)
Theorem validate_sku_ignores_case (ud : UnicodeData) (sku : list N)
    (marketplace : option (list N)) :
  all_ascii sku = true ->
  validate_sku ud (str_upper ud sku) marketplace = validate_sku ud sku marketplace.
Proof.
  intros Hs. rewrite !validate_sku_unfold.
  rewrite (str_upper_ascii ud sku Hs), (strip_map_upper ud sku Hs).
  pose proof (all_ascii_strip (py_isspace ud) sku Hs) as Ht.
  set (t := strip (py_isspace ud) sku) in *.
  destruct (map_upper_idempotent ud t Ht) as [Hidem Hup].
  assert (Hu : str_upper ud (List.map ascii_upper t) = str_upper ud t)
    by (by rewrite (str_upper_ascii ud _ Hup), Hidem, (str_upper_ascii ud t Ht)).
  destruct t as [|c t']; [reflexivity|].
  cbn [List.map] in *. cbv iota beta. by rewrite Hu.
Qed.

Lemma validate_sku_ignores_case_witness :
  all_ascii (pystr "b00abc123z") = true
  /\ validate_sku ucd_excerpt (str_upper ucd_excerpt (pystr "b00abc123z"))
       (Some (pystr "amazon"))
     = validate_sku ucd_excerpt (pystr "b00abc123z") (Some (pystr "amazon")).
Proof.
  split; [reflexivity|].
  apply (validate_sku_ignores_case ucd_excerpt (pystr "b00abc123z")
           (Some (pystr "amazon"))).
  reflexivity.
Defined.

Section FormatProps.
Variable ud : UnicodeData.

(** The upper-cased stripped ASCII SKU does not end in a newline, so [$]
    stands for the end of the SKU. *)
Lemma stripped_upper_match r sku :
  all_ascii sku = true ->
  match_to_end r (str_upper ud (strip (py_isspace ud) sku))
  = fullmatch r (List.map ascii_upper (strip (py_isspace ud) sku)).
Proof.
  intros Hs. pose proof (all_ascii_strip (py_isspace ud) sku Hs) as Ht.
  destruct (strip_ends (py_isspace ud) sku) as [_ Hlast].
  set (t := strip (py_isspace ud) sku) in *.
  rewrite (str_upper_ascii ud t Ht). apply match_to_end_no_newline.
  rewrite <- List.map_rev.
  rewrite <- all_ascii_rev in Ht.
  destruct (rev t) as [|c t']; [done|]. simpl in *.
  apply andb_true_iff in Ht as [Hc _].
  by apply (ascii_upper_facts ud c Hc).
Qed.

Lemma forallb_map_upper (p q : N -> bool) s :
  (forall c, is_ascii c = true -> p (ascii_upper c) = q c) ->
  all_ascii s = true ->
  forallb p (List.map ascii_upper s) = forallb q s.
Proof.
  intros Hpq. induction s as [|c s IH]; simpl; [done|].
  intros [Hc Hs]%andb_true_iff. by rewrite (Hpq c Hc), IH.
Qed.

Lemma validate_sku_known m pattern sku :
  m <> [] -> assoc m (patterns ud) = Some pattern -> all_ascii sku = true ->
  validate_sku ud sku (Some m)
  = match strip (py_isspace ud) sku with
    | [] => false
    | _ => fullmatch pattern (List.map ascii_upper (strip (py_isspace ud) sku))
    end.
Proof.
  intros Hm Hpat Hs. rewrite validate_sku_unfold.
  pose proof (stripped_upper_match pattern sku Hs) as Hmatch.
  destruct (strip (py_isspace ud) sku) as [|c t]; [done|].
  destruct m as [|k m]; [done|]. cbv iota beta. rewrite Hpat. exact Hmatch.
Qed.

End FormatProps.

(** X6.  The formats of the four marketplaces, for an ASCII SKU [sku] with
    [t] the SKU without the whitespace around it: amazon accepts exactly 10
    letters or digits (the alternative starting with [B] adds nothing),
    ebay exactly 12 digits, shopify 1 to 100 letters, digits, hyphens and
    underscores, walmart 8 to 15 letters or digits; letters of either
    case. *)
Theorem validate_sku_marketplace_formats (ud : UnicodeData) (sku : list N) :
  all_ascii sku = true ->
  let t := strip (py_isspace ud) sku in
  validate_sku ud sku (Some (pystr "amazon"))
  = (length t =? 10)%nat && forallb ascii_isalnum t
  /\ validate_sku ud sku (Some (pystr "ebay"))
     = (length t =? 12)%nat && forallb is_digit t
  /\ validate_sku ud sku (Some (pystr "shopify"))
     = (1 <=? length t)%nat && (length t <=? 100)%nat && forallb shopify_char t
  /\ validate_sku ud sku (Some (pystr "walmart"))
     = (8 <=? length t)%nat && (length t <=? 15)%nat && forallb ascii_isalnum t.
Proof.
  intros Hs. cbv zeta.
  pose proof (all_ascii_strip (py_isspace ud) sku Hs) as Ht.
  assert (Halnum : forallb (fun c => is_upper_az c || is_digit c)
                     (List.map ascii_upper (strip (py_isspace ud) sku))
                   = forallb ascii_isalnum (strip (py_isspace ud) sku))
    by (apply forallb_map_upper; [intros c Hc; apply (ascii_upper_facts ud c Hc) | done]).
  assert (Hdigit : forallb is_digit (List.map ascii_upper (strip (py_isspace ud) sku))
                   = forallb is_digit (strip (py_isspace ud) sku))
    by (apply forallb_map_upper; [intros c Hc; apply (ascii_upper_facts ud c Hc) | done]).
  assert (Hshop : forallb shopify_char (List.map ascii_upper (strip (py_isspace ud) sku))
                  = forallb shopify_char (strip (py_isspace ud) sku))
    by (apply forallb_map_upper; [intros c Hc; apply (ascii_upper_facts ud c Hc) | done]).
  split; [|split; [|split]].
  - rewrite (validate_sku_known ud (pystr "amazon") _ sku ltac:(discriminate)
               eq_refl Hs).
    unfold Chr. rewrite fullmatch_Alt, fullmatch_Seq_Cls.
    unfold cls_upper_digit. rewrite !fullmatch_Rep_Cls by lia.
    rewrite <- Halnum, !length_map.
    destruct (strip (py_isspace ud) sku) as [|c t]; [done|].
    cbn [List.map length forallb].
    destruct (N.eqb_spec 66 (ascii_upper c)) as [<-|Hne]; cbn [andb orb].
    + rewrite fullmatch_Rep_Cls by lia. rewrite length_map.
      destruct (length t) as [|[|[|[|[|[|[|[|[|[|n]]]]]]]]]]; try reflexivity.
      cbn. by rewrite orb_diag.
    + destruct (length t) as [|[|[|[|[|[|[|[|[|[|n]]]]]]]]]]; reflexivity.
  - rewrite (validate_sku_known ud (pystr "ebay") _ sku ltac:(discriminate)
               eq_refl Hs).
    unfold cls_digit. rewrite fullmatch_Rep_Cls by lia.
    rewrite Hdigit, length_map.
    destruct (strip (py_isspace ud) sku) as [|c t]; [done|].
    f_equal. apply eq_true_iff_eq.
    rewrite andb_true_iff, !Nat.leb_le, Nat.eqb_eq. lia.
  - rewrite (validate_sku_known ud (pystr "shopify") _ sku ltac:(discriminate)
               eq_refl Hs).
    unfold cls_shopify. fold shopify_char.
    change (Cls (fun c => shopify_char c)) with (Cls shopify_char).
    rewrite fullmatch_Rep_Cls by lia. rewrite Hshop, length_map.
    by destruct (strip (py_isspace ud) sku).
  - rewrite (validate_sku_known ud (pystr "walmart") _ sku ltac:(discriminate)
               eq_refl Hs).
    unfold cls_upper_digit. rewrite fullmatch_Rep_Cls by lia.
    rewrite Halnum, length_map.
    by destruct (strip (py_isspace ud) sku).
Qed.

Lemma validate_sku_marketplace_formats_witness :
  all_ascii (pystr " b001122334 ") = true
  /\ validate_sku ucd_excerpt (pystr " b001122334 ") (Some (pystr "amazon"))
     = (length (strip (py_isspace ucd_excerpt) (pystr " b001122334 ")) =? 10)%nat
       && forallb ascii_isalnum (strip (py_isspace ucd_excerpt) (pystr " b001122334 ")).
Proof.
  split; [reflexivity|].
  apply (validate_sku_marketplace_formats ucd_excerpt (pystr " b001122334 ")).
  reflexivity.
Defined.

(** ** The marketplace rules *)

(** [$] stands for the end of the string or for its final newline. *)
Lemma match_to_end_body r s :
  match_to_end r s = true ->
  exists body, (s = body \/ s = body ++ [newline]) /\ fullmatch r body = true.
Proof.
  unfold match_to_end. intros [H|H]%orb_true_iff; [by exists s; auto|].
  destruct (rev s) as [|c s'] eqn:Hrev; [discriminate|].
  apply andb_true_iff in H as [Hc%N.eqb_eq Hm]. subst c.
  exists (rev s'). split; [right | done].
  rewrite <- (rev_involutive s), Hrev. reflexivity.
Qed.

Lemma fullmatch_Rep_Cls_Forall p lo hi s :
  lo <= hi -> fullmatch (Rep lo hi (Cls p)) s = true ->
  Forall (fun c => p c = true) s /\ lo <= length s <= hi.
Proof.
  intros Hle. rewrite fullmatch_Rep_Cls by done.
  rewrite !andb_true_iff, !Nat.leb_le, List.forallb_forall, List.Forall_forall.
  tauto.
Qed.

(** A string of two characters or more whose first character is outside
    the class does not match. *)
Lemma match_to_end_bad_head p lo hi c s :
  lo <= hi -> p c = false -> s <> [] ->
  match_to_end (Rep lo hi (Cls p)) (c :: s) = false.
Proof.
  intros Hle Hc Hs. apply not_true_is_false. intros Hm.
  destruct (match_to_end_body _ _ Hm) as (body & Hbody & Hfull).
  destruct (fullmatch_Rep_Cls_Forall p lo hi body Hle Hfull) as [Hall _].
  assert (Hhead : exists rest, body = c :: rest).
  { destruct Hbody as [<-|Hb]; [by eexists|].
    destruct body as [|c' rest]; [|injection Hb as -> _; by eexists].
    injection Hb as _ ->. done. }
  destruct Hhead as [rest ->]. inversion Hall; congruence.
Qed.

Lemma process_amazon_sku_eq sku :
  _process_amazon_sku sku
  = if match sku with c :: _ => (c =? 66)%N | [] => false end
       && Nat.eqb (length sku) 10
    then pystr "AMZ-" ++ sku else sku.
Proof.
  destruct sku as [|c s]; [reflexivity|].
  destruct (N.eqb_spec c 66) as [->|Hne]; [reflexivity|].
  unfold _process_amazon_sku.
  destruct c as [|q]; [reflexivity|].
  repeat (destruct q as [q|q|]; try reflexivity). done.
Qed.

Lemma assoc_marketplace_rules ud marketplace :
  (marketplace = pystr "amazon"
   /\ assoc marketplace (marketplace_rules ud) = Some _process_amazon_sku)
  \/ (marketplace = pystr "ebay"
      /\ assoc marketplace (marketplace_rules ud) = Some (_process_ebay_sku ud))
  \/ (marketplace = pystr "shopify"
      /\ assoc marketplace (marketplace_rules ud) = Some _process_shopify_sku)
  \/ (marketplace = pystr "walmart"
      /\ assoc marketplace (marketplace_rules ud) = Some _process_walmart_sku)
  \/ (assoc marketplace (marketplace_rules ud) = None
      /\ marketplace <> pystr "shopify").
Proof.
  unfold marketplace_rules. cbn [assoc].
  repeat case_bool_decide; subst; auto 10.
Qed.

Lemma process_shopify_sku_twice sku :
  _process_shopify_sku (_process_shopify_sku sku)
  = pystr "SHO-" ++ _process_shopify_sku sku.
Proof.
  unfold _process_shopify_sku. cbv zeta. f_equal.
  rewrite List.filter_app. f_equal.
  set (keep := fun c => ascii_isalnum c || (c =? hyphen)%N).
  induction sku as [|c s IH]; simpl; [done|].
  destruct (keep c) eqn:Hc; simpl; [by rewrite Hc, IH | exact IH].
Qed.

(** X7.  Transforming an already transformed SKU: the rules of amazon, ebay
    and walmart, and the identity of an unregistered marketplace, leave it
    as it is, while the shopify rule puts a second [SHO-] in front. *)
Theorem apply_marketplace_rules_twice (ud : UnicodeData)
    (sku marketplace : list N) :
  (marketplace <> pystr "shopify" ->
   _apply_marketplace_rules ud (_apply_marketplace_rules ud sku marketplace)
     marketplace
   = _apply_marketplace_rules ud sku marketplace)
  /\ _apply_marketplace_rules ud
       (_apply_marketplace_rules ud sku (pystr "shopify")) (pystr "shopify")
     = pystr "SHO-" ++ _apply_marketplace_rules ud sku (pystr "shopify").
Proof.
  split.
  - intros Hshop. unfold _apply_marketplace_rules.
    destruct (assoc_marketplace_rules ud marketplace)
      as [[-> ->]|[[-> ->]|[[-> _]|[[-> ->]|[-> _]]]]]; [| | done | |done].
    + rewrite (process_amazon_sku_eq sku).
      destruct (_ && _) eqn:Hm; [reflexivity|].
      by rewrite process_amazon_sku_eq, Hm.
    + unfold _process_ebay_sku, cls_d.
      destruct (match_to_end _ sku) eqn:Hm; [|by rewrite Hm].
      assert (Hlen : 8 <= length sku).
      { destruct (match_to_end_body _ _ Hm) as (body & Hb & Hf).
        apply fullmatch_Rep_Cls_Forall in Hf as [_ Hl]; [|lia].
        destruct Hb as [->| ->]; [lia|]. rewrite length_app. lia. }
      change (pystr "EBY-" ++ skipn (length sku - 8) sku)
        with (69%N :: (pystr "BY-" ++ skipn (length sku - 8) sku)).
      rewrite (match_to_end_bad_head (py_isdecimal ud) 12 12 69);
        [done | lia | done | done].
    + unfold _process_walmart_sku, cls_upper_digit.
      destruct (match_to_end _ sku) eqn:Hm; [|by rewrite Hm].
      destruct (match_to_end _ (pystr "WMT-" ++ sku)) eqn:Hm2; [|done].
      exfalso.
      destruct (match_to_end_body _ _ Hm) as (body & Hb & Hf).
      apply fullmatch_Rep_Cls_Forall in Hf as [_ Hl]; [|lia].
      destruct (match_to_end_body _ _ Hm2) as (body2 & Hb2 & Hf2).
      apply fullmatch_Rep_Cls_Forall in Hf2 as [Hall _]; [|lia].
      assert (Hpre : exists rest, body2 = pystr "WMT-" ++ rest).
      { destruct Hb2 as [<-|Hb2]; [by eexists|].
        assert (Hne : sku <> []) by (destruct Hb as [->| ->]; by destruct body).
        destruct (exists_last Hne) as (s' & x & ->).
        rewrite app_assoc in Hb2. apply app_inj_tail in Hb2 as [<- _].
        by eexists. }
      destruct Hpre as [rest ->].
      apply Forall_app in Hall as [Hall _].
      vm_compute in Hall. inversion Hall as [|? ? _ H1]; subst.
      inversion H1 as [|? ? _ H2]; subst. inversion H2 as [|? ? _ H3]; subst.
      inversion H3 as [|? ? H4 _]; subst. discriminate H4.
  - unfold _apply_marketplace_rules. cbn [assoc marketplace_rules].
    change (assoc (pystr "shopify") (marketplace_rules ud))
      with (Some _process_shopify_sku).
    apply process_shopify_sku_twice.
Qed.

Lemma apply_marketplace_rules_twice_witness :
  _apply_marketplace_rules ucd_excerpt
    (_apply_marketplace_rules ucd_excerpt (pystr "B001122334") (pystr "amazon"))
    (pystr "amazon")
  = _apply_marketplace_rules ucd_excerpt (pystr "B001122334") (pystr "amazon")
  /\ _apply_marketplace_rules ucd_excerpt
       (_apply_marketplace_rules ucd_excerpt (pystr "AB-1") (pystr "shopify"))
       (pystr "shopify")
     = pystr "SHO-SHO-AB-1".
Proof.
  destruct (apply_marketplace_rules_twice ucd_excerpt (pystr "B001122334")
              (pystr "amazon")) as [Hother _].
  destruct (apply_marketplace_rules_twice ucd_excerpt (pystr "AB-1")
              (pystr "amazon")) as [_ Hshopify].
  split.
  - apply Hother. discriminate.
  - rewrite Hshopify. reflexivity.
Defined.

Lemma is_digit_decimal ud c : is_digit c = true -> py_isdecimal ud c = true.
Proof.
  intros Hd. unfold py_isdecimal.
  assert (Ha : is_ascii c = true).
  { revert Hd. unfold is_digit, in_range, is_ascii.
    rewrite andb_true_iff, !N.leb_le, N.ltb_lt. lia. }
  by rewrite Ha.
Qed.

Lemma process_ebay_sku_item_id ud head tail :
  length head = 4 -> length tail = 8 ->
  forallb is_digit (head ++ tail) = true ->
  _process_ebay_sku ud (head ++ tail) = pystr "EBY-" ++ tail.
Proof.
  intros Hh Ht Hd. unfold _process_ebay_sku, cls_d, match_to_end.
  rewrite fullmatch_Rep_Cls by lia.
  rewrite length_app, Hh, Ht. cbn [Nat.leb Nat.add andb].
  assert (Hdec : forallb (py_isdecimal ud) (head ++ tail) = true).
  { rewrite List.forallb_forall in *. intros c Hc.
    by apply is_digit_decimal, Hd. }
  rewrite Hdec. cbn [orb Nat.sub].
  rewrite skipn_app, Hh, Nat.sub_diag, skipn_O.
  rewrite <- Hh, skipn_all. reflexivity.
Qed.

(** X8.  The eBay rule keeps the last eight digits of a twelve-digit item
    id and drops the first four: two item ids that differ only in their
    first four digits are given the same mapped SKU. *)
Theorem ebay_rule_drops_leading_digits (ud : UnicodeData)
    (head head' tail : list N) :
  length head = 4 -> length head' = 4 -> length tail = 8 ->
  forallb is_digit (head ++ head' ++ tail) = true ->
  _apply_marketplace_rules ud (head ++ tail) (pystr "ebay")
    = pystr "EBY-" ++ tail
  /\ _apply_marketplace_rules ud (head' ++ tail) (pystr "ebay")
     = _apply_marketplace_rules ud (head ++ tail) (pystr "ebay").
Proof.
  intros Hh Hh' Ht Hd.
  rewrite !forallb_app, !andb_true_iff in Hd. destruct Hd as (H1 & H2 & H3).
  unfold _apply_marketplace_rules.
  change (assoc (pystr "ebay") (marketplace_rules ud))
    with (Some (_process_ebay_sku ud)).
  cbv beta iota.
  rewrite !process_ebay_sku_item_id; try done;
    by rewrite forallb_app, andb_true_iff.
Qed.

Lemma ebay_rule_drops_leading_digits_witness :
  _apply_marketplace_rules ucd_excerpt (pystr "123456789012") (pystr "ebay")
    = pystr "EBY-56789012"
  /\ _apply_marketplace_rules ucd_excerpt (pystr "999956789012") (pystr "ebay")
     = _apply_marketplace_rules ucd_excerpt (pystr "123456789012")
         (pystr "ebay").
Proof.
  apply (ebay_rule_drops_leading_digits ucd_excerpt (pystr "1234")
           (pystr "9999") (pystr "56789012")); reflexivity.
Defined.

Lemma rules_keep_alphabet ud sku marketplace :
  Forall (fun c => sku_char c = true) sku ->
  Forall (fun c => sku_char c = true)
    (_apply_marketplace_rules ud sku marketplace).
Proof.
  intros Hs. unfold _apply_marketplace_rules.
  assert (Hpre : forall p : string,
    forallb sku_char (pystr p) = true -> forall s,
    Forall (fun c => sku_char c = true) s ->
    Forall (fun c => sku_char c = true) (pystr p ++ s)).
  { intros p Hp s Hs'. apply Forall_app. split; [|done].
    apply List.Forall_forall. by apply List.forallb_forall. }
  destruct (assoc_marketplace_rules ud marketplace)
    as [[_ ->]|[[_ ->]|[[_ ->]|[[_ ->]|[-> _]]]]]; [| | | |done].
  - rewrite process_amazon_sku_eq. destruct (_ && _); [|done].
    by apply Hpre.
  - unfold _process_ebay_sku. destruct (match_to_end _ _); [|done].
    apply Hpre; [done|].
    rewrite <- (firstn_skipn (length sku - 8) sku) in Hs.
    by apply Forall_app in Hs as [_ Hs].
  - unfold _process_shopify_sku. cbv zeta. apply Hpre; [done|].
    rewrite List.Forall_forall in *. intros c Hc.
    apply List.filter_In in Hc as [Hc _]. by apply Hs.
  - unfold _process_walmart_sku. destruct (match_to_end _ _); [|done].
    by apply Hpre.
Qed.

(** X9.  For an ASCII raw SKU and any marketplace, the mapped SKU (the
    normalizer followed by the marketplace rule) is made of [A-Z], [0-9],
    [_] and [-] only; the one of shopify holds no underscore. *)
Theorem mapped_sku_alphabet (ud : UnicodeData) (raw marketplace : list N) :
  all_ascii raw = true ->
  Forall (fun c => sku_char c = true)
    (_apply_marketplace_rules ud (_clean_sku ud raw) marketplace)
  /\ Forall (fun c => c <> underscore)
       (_apply_marketplace_rules ud (_clean_sku ud raw) (pystr "shopify")).
Proof.
  intros Ha. split.
  - apply rules_keep_alphabet, clean_sku_chars, Ha.
  - unfold _apply_marketplace_rules.
    change (assoc (pystr "shopify") (marketplace_rules ud))
      with (Some _process_shopify_sku).
    cbv beta iota.
    unfold _process_shopify_sku. cbv zeta. apply Forall_app. split.
    + repeat constructor; discriminate.
    + apply List.Forall_forall. intros c Hc.
      apply List.filter_In in Hc as [_ Hk]. intros ->. discriminate Hk.
Qed.

Lemma mapped_sku_alphabet_witness :
  Forall (fun c => sku_char c = true)
    (_apply_marketplace_rules ucd_excerpt
       (_clean_sku ucd_excerpt (pystr " b0#0112233_4 ")) (pystr "amazon"))
  /\ Forall (fun c => c <> underscore)
       (_apply_marketplace_rules ucd_excerpt
          (_clean_sku ucd_excerpt (pystr " b0#0112233_4 ")) (pystr "shopify")).
Proof.
  apply (mapped_sku_alphabet ucd_excerpt (pystr " b0#0112233_4 ")
           (pystr "amazon")). reflexivity.
Defined.

(** ** The catalog lookup *)

Lemma find_In {A} (f : A -> bool) (l : list A) (x : A) :
  In x l -> f x = true -> exists y, List.find f l = Some y.
Proof.
  intros Hin Hf. destruct (List.find f l) as [y|] eqn:Hfind; [by eexists|].
  by rewrite (find_none f l Hfind x Hin) in Hf.
Qed.

Lemma find_absent {A} (f : A -> bool) (l : list A) :
  (forall x, In x l -> f x = false) -> List.find f l = None.
Proof.
  intros H. destruct (List.find f l) as [y|] eqn:Hfind; [|done].
  apply find_some in Hfind as [Hin Hf]. by rewrite (H y Hin) in Hf.
Qed.

Section Lookup.
Variable extractOne : list N -> list (list N) -> option (list N * Z).

Lemma next_product_found cond (products : list Product) p :
  In p products -> cond p = true ->
  exists p', next_product cond products = Ok p'
             /\ In p' products /\ cond p' = true.
Proof.
  intros Hin Hc. unfold next_product.
  destruct (find_In cond products p Hin Hc) as [p' Hp']. rewrite Hp'.
  apply find_some in Hp' as [? ?]. eauto.
Qed.

Lemma accepted_Some m threshold choice :
  accepted m threshold = Some choice ->
  exists score, m = Some (choice, score) /\ (threshold <= score)%Z.
Proof.
  unfold accepted. destruct m as [[c score]|]; [|done].
  destruct (Z.leb_spec threshold score); [|done].
  intros [= ->]. eauto.
Qed.

Lemma fuzzy_match_in_catalog sku products listings threshold :
  picks_a_choice extractOne ->
  exists r, _fuzzy_match_product extractOne sku (Live products listings) threshold
            = Ok r
            /\ forall p, r = Some p -> In p products.
Proof.
  intros Hpick. unfold _fuzzy_match_product. cbn [query_products mbind result_bind].
  destruct products as [|p0 ps]; [by eexists|].
  set (products := p0 :: ps). cbv zeta.
  destruct (accepted (extractOne sku _) threshold) as [choice|] eqn:Hacc.
  - apply accepted_Some in Hacc as (score & Hex & _).
    apply Hpick, List.filter_In in Hex as [Hin _].
    apply List.in_map_iff in Hin as (p & Hp & Hin).
    destruct (next_product_found (fun p => bool_decide (p_sku p = choice))
                products p Hin) as (p' & -> & Hin' & _);
      [by apply bool_decide_eq_true|].
    eexists. split; [reflexivity|]. by intros ? [= <-].
  - destruct (accepted (extractOne sku
                         (List.filter nonempty (omap p_msku products)))
                threshold) as [choice|] eqn:Hacc2;
      [|exists None; split; [reflexivity|discriminate]].
    apply accepted_Some in Hacc2 as (score & Hex & _).
    apply Hpick, List.filter_In in Hex as [Hin _].
    assert (Hp : exists p, In p products /\ p_msku p = Some choice).
    { apply list_elem_of_In, list_elem_of_omap in Hin as (p & Hp & Hm).
      exists p. split; [by apply list_elem_of_In|done]. }
    destruct Hp as (p & Hin' & Hm).
    destruct (next_product_found
                (fun p => bool_decide (p_msku p = Some choice))
                products p Hin') as (p' & -> & Hin'' & _);
      [by apply bool_decide_eq_true|].
    eexists. split; [reflexivity|]. by intros ? [= <-].
Qed.

End Lookup.

(** X10.  A product whose SKU equals the mapped SKU wins over everything
    else: whatever the master SKUs, the listings and the fuzzy matcher say,
    the lookup on a working session returns a product of the catalog with
    exactly that SKU. *)
Theorem direct_sku_match_wins
    (extractOne : list N -> list (list N) -> option (list N * Z))
    (mapped_sku marketplace : list N)
    (products : list Product) (listings : list MarketplaceListing)
    (p : Product) :
  In p products -> p_sku p = mapped_sku ->
  exists p',
    _find_existing_product extractOne mapped_sku marketplace
      (Live products listings) = Ok (Some p')
    /\ In p' products /\ p_sku p' = mapped_sku.
Proof.
  intros Hin Hsku. unfold _find_existing_product.
  cbn [query_products mbind result_bind].
  destruct (find_In (fun p => bool_decide (p_sku p = mapped_sku)) products p Hin)
    as [p' Hp']; [by apply bool_decide_eq_true|].
  rewrite Hp'. apply find_some in Hp' as [Hin' Hs%bool_decide_eq_true]. eauto.
Qed.

Lemma direct_sku_match_wins_witness :
  exists p',
    _find_existing_product first_choice_93 (pystr "AMZ-B001122334")
      (pystr "ebay") widget_on_ebay = Ok (Some p')
    /\ In p' [widget] /\ p_sku p' = pystr "AMZ-B001122334".
Proof.
  apply (direct_sku_match_wins first_choice_93 (pystr "AMZ-B001122334")
           (pystr "ebay") [widget] [widget_listing] widget);
    [by left | reflexivity].
Defined.

Lemma find_existing_product_known
    (extractOne : list N -> list (list N) -> option (list N * Z))
    (mapped_sku marketplace : list N)
    (products : list Product) (listings : list MarketplaceListing) :
  picks_a_choice extractOne ->
  exists r,
    _find_existing_product extractOne mapped_sku marketplace
      (Live products listings) = Ok r
    /\ forall p, r = Some p ->
         In p products
         \/ exists l, In l listings /\ l_product l = Some p
                      /\ l_marketplace_sku l = mapped_sku
                      /\ l_platform l = marketplace.
Proof.
  intros Hpick. unfold _find_existing_product.
  cbn [query_products query_listings mbind result_bind].
  destruct (List.find (fun p => bool_decide (p_sku p = mapped_sku)) products)
    as [p1|] eqn:H1.
  { eexists. split; [reflexivity|]. intros p [= <-].
    left. by apply find_some in H1 as [? _]. }
  destruct (List.find (fun p => bool_decide (p_msku p = Some mapped_sku))
              products) as [p2|] eqn:H2.
  { eexists. split; [reflexivity|]. intros p [= <-].
    left. by apply find_some in H2 as [? _]. }
  destruct (List.find _ listings) as [l|] eqn:H3.
  { eexists. split; [reflexivity|]. intros p Hp. right. exists l.
    apply find_some in H3 as [Hin [Hs%bool_decide_eq_true
                                   Hm%bool_decide_eq_true]%andb_true_iff].
    auto. }
  destruct (fuzzy_match_in_catalog extractOne mapped_sku products listings 80
              Hpick) as (r & Hr & Hin).
  exists r. split; [exact Hr|]. intros p Hp. left. by apply Hin.
Qed.


(** X11.  With a fuzzy matcher that returns one of the choices it was
    given, the lookup on a working session never raises, and a product it
    returns is a product of the catalog or the product of a listing with
    the mapped SKU and the marketplace. *)
Theorem lookup_returns_known_product
    (extractOne : list N -> list (list N) -> option (list N * Z))
    (mapped_sku marketplace : list N)
    (products : list Product) (listings : list MarketplaceListing) :
  picks_a_choice extractOne ->
  exists r,
    _find_existing_product extractOne mapped_sku marketplace
      (Live products listings) = Ok r
    /\ forall p, r = Some p ->
         In p products
         \/ exists l, In l listings /\ l_product l = Some p
                      /\ l_marketplace_sku l = mapped_sku
                      /\ l_platform l = marketplace.
Proof. apply find_existing_product_known. Qed.

Lemma lookup_returns_known_product_witness :
  exists r,
    _find_existing_product first_choice_93 (pystr "AMZ-B001122335")
      (pystr "amazon") (Live [widget] [widget_listing]) = Ok r
    /\ forall p, r = Some p ->
         In p [widget]
         \/ exists l, In l [widget_listing] /\ l_product l = Some p
                      /\ l_marketplace_sku l = pystr "AMZ-B001122335"
                      /\ l_platform l = pystr "amazon".
Proof.
  apply (lookup_returns_known_product first_choice_93).
  intros query choices choice score. unfold first_choice_93.
  destruct choices as [|c cs]; [discriminate|].
  intros [= <- _]. by left.
Defined.

(** X12.  The threshold of the fuzzy match: when no product has the mapped
    SKU as SKU or master SKU, no listing has it for the marketplace, and
    the matcher scores the mapped SKU below 80 against the SKUs and
    against the master SKUs of the catalog, the lookup finds nothing. *)
Theorem low_fuzzy_score_is_no_match
    (extractOne : list N -> list (list N) -> option (list N * Z))
    (mapped_sku marketplace : list N)
    (products : list Product) (listings : list MarketplaceListing) :
  scores_below_80 extractOne mapped_sku
    (List.filter nonempty (List.map p_sku products)) ->
  scores_below_80 extractOne mapped_sku
    (List.filter nonempty (omap p_msku products)) ->
  (forall p, In p products ->
     p_sku p <> mapped_sku /\ p_msku p <> Some mapped_sku) ->
  (forall l, In l listings ->
     l_marketplace_sku l <> mapped_sku \/ l_platform l <> marketplace) ->
  _find_existing_product extractOne mapped_sku marketplace
    (Live products listings) = Ok None.
Proof.
  intros Hsku Hmsku Hp Hl. unfold _find_existing_product.
  cbn [query_products query_listings mbind result_bind].
  rewrite find_absent
    by (intros p Hin; apply bool_decide_eq_false; by apply Hp).
  rewrite find_absent
    by (intros p Hin; apply bool_decide_eq_false; by apply Hp).
  rewrite find_absent.
  2:{ intros l Hin. apply andb_false_iff.
      destruct (Hl l Hin); [left|right]; by apply bool_decide_eq_false. }
  unfold _fuzzy_match_product. cbn [query_products mbind result_bind].
  destruct products as [|p0 ps]; [done|]. cbv zeta.
  assert (Hacc : forall choices,
            scores_below_80 extractOne mapped_sku choices ->
            accepted (extractOne mapped_sku choices) 80 = None).
  { intros choices Hlow. unfold accepted.
    destruct (extractOne mapped_sku choices) as [[c score]|] eqn:Hex; [|done].
    apply Hlow in Hex. destruct (Z.leb_spec 80 score); [lia|done]. }
  by rewrite (Hacc _ Hsku), (Hacc _ Hmsku).
Qed.

Lemma low_fuzzy_score_is_no_match_witness :
  _find_existing_product (fun query choices =>
                            match choices with
                            | choice :: _ =>
                                Some (choice,
                                      if bool_decide (query = choice)
                                      then 100%Z else 79%Z)
                            | [] => None
                            end)
    (pystr "AMZ-B001122335") (pystr "amazon") (Live [widget] [widget_listing])
  = Ok None.
Proof.
  apply low_fuzzy_score_is_no_match.
  - intros choice score [= <- <-]. vm_compute. reflexivity.
  - intros choice score [= <- <-]. vm_compute. reflexivity.
  - intros p [<-|[]]. split; discriminate.
  - intros l [<-|[]]. left. discriminate.
Defined.

(** ** The mapping record *)

Section RecordProps.
Variable ud : UnicodeData.

Lemma notes_tier original mapped existing marketplace :
  let c := _calculate_confidence ud original mapped existing marketplace in
  _generate_mapping_notes c existing
  = tier_note (_determine_mapping_method c existing) ++ pystr "; "
    ++ match existing with
       | Some p => pystr "Matched to existing product: " ++ p_name p
       | None => pystr "No existing product match found"
       end.
Proof.
  cbv zeta. unfold _generate_mapping_notes, _determine_mapping_method.
  destruct existing as [p|];
    [change (bool_decide (is_Some (Some p))) with true
    |change (bool_decide (is_Some (@None Product))) with false];
    score_cases; reflexivity.
Qed.

Lemma matched_confidence original mapped p marketplace :
  let c := _calculate_confidence ud original mapped (Some p) marketplace in
  py_ge c 0.8%float = true
  /\ _determine_mapping_method c (Some p) <> pystr "manual".
Proof.
  cbv zeta. unfold _determine_mapping_method.
  change (bool_decide (is_Some (Some p))) with true.
  score_cases; split; (reflexivity || discriminate).
Qed.

Lemma matched_registered original mapped p marketplace :
  is_Some (assoc marketplace (marketplace_rules ud)) ->
  let c := _calculate_confidence ud original mapped (Some p) marketplace in
  _determine_mapping_method c (Some p) = pystr "automatic".
Proof.
  intros Hreg. cbv zeta. unfold _calculate_confidence, _determine_mapping_method.
  rewrite (bool_decide_eq_true_2 _ Hreg).
  change (bool_decide (is_Some (Some p))) with true.
  score_cases; reflexivity.
Qed.

Lemma valid_confidence original mapped existing marketplace :
  validate_sku ud original (Some marketplace) = true ->
  PrimFloat.ltb (_calculate_confidence ud original mapped existing marketplace)
    0.6%float = false.
Proof.
  intros Hv. unfold _calculate_confidence. rewrite Hv.
  score_cases; reflexivity.
Qed.

End RecordProps.

(** X14.  When the lookup finds a product, [map_sku] returns a record that
    carries the product's id, and as [msku] the product's master SKU, or
    the product's SKU when the master SKU is missing or empty: the
    canonical id of a matched SKU depends on the product alone, not on the
    SKU or the marketplace. *)
Theorem matched_record_reuses_product (ud : UnicodeData)
    (extractOne : list N -> list (list N) -> option (list N * Z))
    (original_sku marketplace : list N) (db : Session) (p : Product) :
  _find_existing_product extractOne
    (_apply_marketplace_rules ud (_clean_sku ud original_sku) marketplace)
    marketplace db = Ok (Some p) ->
  exists r msku,
    map_sku ud extractOne (PyStr original_sku) marketplace db = Ok r
    /\ r !! "product_id" = Some (PyStr (p_id p))
    /\ r !! "msku" = Some (PyStr msku)
    /\ (forall m, p_msku p = Some m -> m <> [] -> msku = m)
    /\ (p_msku p = None \/ p_msku p = Some [] -> msku = p_sku p).
Proof.
  intros Hfind. rewrite map_sku_str_eq. cbv zeta. rewrite Hfind.
  eexists _, _. split; [reflexivity|]. split; [reflexivity|].
  split; [reflexivity|]. unfold _generate_msku.
  split.
  - intros m -> Hm. by destruct m.
  - by intros [-> | ->].
Qed.

Lemma matched_record_reuses_product_witness :
  exists r msku,
    map_sku ucd_excerpt no_fuzzy (PyStr (pystr "123456789012")) (pystr "ebay")
      widget_on_ebay = Ok r
    /\ r !! "product_id" = Some (PyStr (pystr "p-1"))
    /\ r !! "msku" = Some (PyStr msku)
    /\ (forall m, p_msku widget = Some m -> m <> [] -> msku = m)
    /\ (p_msku widget = None \/ p_msku widget = Some [] -> msku = p_sku widget).
Proof.
  apply (matched_record_reuses_product ucd_excerpt no_fuzzy
           (pystr "123456789012") (pystr "ebay") widget_on_ebay widget).
  reflexivity.
Defined.

(** X15.  The notes of a record never contradict its method: the first
    sentence of [notes] is the one that belongs to [mapping_method].
    (Without a match the confidence stays below 0.9, so the notes never
    announce an automatic mapping that the method does not grant.) *)
Theorem notes_agree_with_method (ud : UnicodeData)
    (extractOne : list N -> list (list N) -> option (list N * Z))
    (original_sku : pyval) (marketplace : list N) (db : Session)
    (r : gmap string pyval) :
  map_sku ud extractOne original_sku marketplace db = Ok r ->
  exists method rest,
    r !! "mapping_method" = Some (PyStr method)
    /\ r !! "notes" = Some (PyStr (tier_note method ++ pystr "; " ++ rest)).
Proof.
  intros (s & existing & -> & _ & ->)%map_sku_ok.
  eexists _, _. split; [reflexivity|].
  unfold mapping_result.
  match goal with
  | |- context [_generate_mapping_notes
                  (_calculate_confidence ?u ?o ?m ?e ?mk) ?e] =>
      rewrite (notes_tier u o m e mk)
  end.
  reflexivity.
Qed.

Lemma notes_agree_with_method_witness :
  exists method rest,
    match map_sku ucd_excerpt no_fuzzy (PyStr (pystr "AB-123456"))
            (pystr "amazon") empty_catalog with
    | Ok r =>
        r !! "mapping_method" = Some (PyStr method)
        /\ r !! "notes" = Some (PyStr (tier_note method ++ pystr "; " ++ rest))
    | Raise _ => False
    end.
Proof.
  destruct (notes_agree_with_method ucd_excerpt no_fuzzy
              (PyStr (pystr "AB-123456")) (pystr "amazon") empty_catalog _
              eq_refl) as (method & rest & H).
  exists method, rest. exact H.
Defined.

(** X16.  A record with a matched product is never left to manual review:
    its confidence is at least 0.8 and its method is [automatic] or
    [ai_suggested]; for a marketplace that has a rule it is always
    [automatic]. *)
Theorem match_is_never_manual (ud : UnicodeData)
    (extractOne : list N -> list (list N) -> option (list N * Z))
    (original_sku : pyval) (marketplace : list N) (db : Session)
    (r : gmap string pyval) (id : list N) :
  map_sku ud extractOne original_sku marketplace db = Ok r ->
  r !! "product_id" = Some (PyStr id) ->
  exists c method,
    r !! "confidence" = Some (PyFloat c)
    /\ py_ge c 0.8%float = true
    /\ r !! "mapping_method" = Some (PyStr method)
    /\ (method = pystr "automatic" \/ method = pystr "ai_suggested")
    /\ (is_Some (assoc marketplace (marketplace_rules ud)) ->
        method = pystr "automatic").
Proof.
  intros (s & existing & -> & _ & ->)%map_sku_ok Hid.
  destruct existing as [p|]; [|discriminate Hid].
  match goal with
  | |- context [mapping_result ?o ?m ?k ?mk ?c ?me ?ex] =>
      pose proof (mapping_result_lookup o m k mk c me ex) as Hl;
      pose proof (matched_confidence ud s m p mk) as Hc;
      pose proof (matched_registered ud s m p mk) as Hr;
      pose proof (method_cases ud s m (Some p) mk) as Hm
  end.
  cbv zeta in Hl, Hc, Hr, Hm.
  destruct Hl as (_ & _ & _ & _ & Hconf & Hmeth & _).
  destruct Hc as [Hge Hnot]. destruct Hm as [Hin _].
  eexists _, _. split; [exact Hconf|]. split; [exact Hge|].
  split; [exact Hmeth|]. split; [|exact Hr].
  destruct Hin as [<-|[<-|[Hman|[]]]]; auto. by destruct Hnot.
Qed.

Lemma match_is_never_manual_witness :
  exists c method,
    match map_sku ucd_excerpt first_choice_93 (PyStr (pystr "x"))
            (pystr "etsy") one_widget with
    | Ok r =>
        r !! "confidence" = Some (PyFloat c)
        /\ py_ge c 0.8%float = true
        /\ r !! "mapping_method" = Some (PyStr method)
        /\ (method = pystr "automatic" \/ method = pystr "ai_suggested")
    | Raise _ => False
    end.
Proof.
  destruct (match_is_never_manual ucd_excerpt first_choice_93
              (PyStr (pystr "x")) (pystr "etsy") one_widget _ (pystr "p-1")
              eq_refl eq_refl) as (c & method & H1 & H2 & H3 & H4 & _).
  exists c, method. repeat split; assumption.
Defined.

(** ** Records through the validator *)

Lemma validate_loop_app ud before after : forall acc,
  validate_loop ud (before ++ after) acc
  = acc' ← validate_loop ud before acc; validate_loop ud after acc'.
Proof.
  induction before as [|m ms IH]; intros acc; [reflexivity|].
  cbn [app validate_loop].
  destruct (validate_step ud acc m) as [acc'|e]; [apply IH | reflexivity].
Qed.

Section FreshRecords.
Variable ud : UnicodeData.
Variable extractOne : list N -> list (list N) -> option (list N * Z).

(** What [map_sku] returns is a mapping record, and when its SKU passes
    validation its confidence is not low. *)
Lemma map_sku_record v marketplace db r :
  map_sku ud extractOne v marketplace db = Ok r ->
  mapping_record r = true
  /\ (passes_validation ud r = true -> below_06 r = false).
Proof.
  intros (s & existing & -> & _ & ->)%map_sku_ok. split; [reflexivity|].
  unfold passes_validation, below_06, stated_marketplace, low_confidence,
    dict_get.
  match goal with
  | |- context [mapping_result ?o ?m ?k ?mk ?c ?me ?ex] =>
      destruct (mapping_result_lookup o m k mk c me ex)
        as (-> & _ & _ & -> & -> & _)
  end.
  cbn [default]. apply valid_confidence.
Qed.

End FreshRecords.

(** X17.  Records that come from [map_sku] pass through the validator
    without a warning: a SKU that passes format validation has confidence
    0.7 or more, which is not below 0.6. *)
Theorem fresh_records_raise_no_warning (ud : UnicodeData)
    (extractOne : list N -> list (list N) -> option (list N * Z))
    (records : list (gmap string pyval)) :
  Forall (fun r => exists v marketplace db,
            map_sku ud extractOne v marketplace db = Ok r) records ->
  exists report,
    validate_mapping_batch ud records = Ok report
    /\ warnings report = [].
Proof.
  intros Hall. unfold validate_mapping_batch.
  rewrite (validate_loop_spec ud records [] [] []).
  2:{ eapply Forall_impl; [exact Hall|]. intros r (v & m & db & Hr).
      by apply (map_sku_record ud extractOne v m db r). }
  cbn [mbind result_bind app]. eexists. split; [reflexivity|].
  cbn [warnings].
  induction Hall as [|r rs (v & m & db & Hr) _ IH]; [reflexivity|].
  destruct (map_sku_record ud extractOne v m db r Hr) as [_ Hlow].
  cbn [List.filter]. destruct (passes_validation ud r) eqn:Hp; [|exact IH].
  cbn [List.filter]. by rewrite Hlow.
Qed.

Lemma fresh_records_raise_no_warning_witness :
  exists report,
    validate_mapping_batch ucd_excerpt
      [match map_sku ucd_excerpt no_fuzzy (PyStr (pystr "B001122334"))
               (pystr "amazon") empty_catalog with
       | Ok r => r
       | Raise _ => ∅
       end] = Ok report
    /\ warnings report = [].
Proof.
  apply (fresh_records_raise_no_warning ucd_excerpt no_fuzzy).
  constructor; [|constructor].
  exists (PyStr (pystr "B001122334")), (pystr "amazon"), empty_catalog.
  reflexivity.
Defined.

(** X18.  The validator has no isolation of records: one record whose SKU
    passes validation but whose [confidence] is a string or [None] (an
    item field copied by [batch_map_skus] can be one) makes the whole call
    raise [TypeError], whatever the other records are. *)
Theorem validator_aborts_on_confidence (ud : UnicodeData)
    (before after : list (gmap string pyval))
    (r : gmap string pyval) (v : pyval) :
  Forall (fun m => mapping_record m = true) before ->
  passes_validation ud r = true ->
  r !! "confidence" = Some v ->
  v = PyNone \/ (exists s, v = PyStr s) ->
  validate_mapping_batch ud (before ++ r :: after)
  = Raise (TypeError ("'<' not supported between instances of '"
                      ++ type_name v ++ "' and 'float'")).
Proof.
  intros Hall Hpass Hconf Hv. unfold validate_mapping_batch.
  rewrite validate_loop_app, (validate_loop_spec ud before [] [] [] Hall).
  cbn [mbind result_bind validate_loop].
  assert (Hstep : forall acc,
    validate_step ud acc r
    = Raise (TypeError ("'<' not supported between instances of '"
                        ++ type_name v ++ "' and 'float'"))).
  { intros [[vs ivs] ws]. unfold validate_step.
    unfold passes_validation, stated_marketplace in Hpass.
    destruct (dict_get r "original_sku"); try discriminate Hpass.
    rewrite Hpass. unfold low_confidence. rewrite Hconf.
    by destruct Hv as [->|[s' ->]]. }
  by rewrite Hstep.
Qed.

Lemma validator_aborts_on_confidence_witness :
  validate_mapping_batch ucd_excerpt
    ([record_low]
     ++ (item_asin
         ∪ {[ "original_sku" := PyStr (pystr "B001122334");
              "marketplace" := PyStr (pystr "amazon");
              "confidence" := PyStr (pystr "high") ]})
     :: [record_high])
  = Raise (TypeError "'<' not supported between instances of 'str' and 'float'").
Proof.
  apply (validator_aborts_on_confidence ucd_excerpt [record_low] [record_high]
           _ (PyStr (pystr "high"))).
  - repeat constructor.
  - reflexivity.
  - reflexivity.
  - right. by eexists.
Defined.

(** ** Batches on a failing session and on malformed items *)

(** X19.  When the session is down, [map_sku] on a string raises the
    session's error, and [batch_map_skus] still returns one record per
    item, each marked [failed] with confidence 0.0 and an error text; for
    an item with a string [sku] the text is the session's message. *)
Theorem lost_connection_fails_every_item (ud : UnicodeData)
    (extractOne : list N -> list (list N) -> option (list N * Z))
    (sku_list : list (gmap string pyval)) (marketplace msg : list N) :
  (forall s, map_sku ud extractOne (PyStr s) marketplace (Down msg)
             = Raise (DatabaseError msg))
  /\ length (batch_map_skus ud extractOne sku_list marketplace (Down msg))
     = length sku_list
  /\ Forall (fun r => r !! "mapping_method" = Some (PyStr (pystr "failed"))
                      /\ r !! "confidence" = Some (PyFloat 0.0%float)
                      /\ is_Some (r !! "error"))
       (batch_map_skus ud extractOne sku_list marketplace (Down msg))
  /\ (forall sku_data s,
        sku_data !! "sku" = Some (PyStr s) ->
        batch_record ud extractOne marketplace (Down msg) sku_data !! "error"
        = Some (PyStr msg)).
Proof.
  assert (Hstr : forall s, map_sku ud extractOne (PyStr s) marketplace (Down msg)
                           = Raise (DatabaseError msg)) by done.
  rewrite batch_map_skus_records.
  split; [exact Hstr|]. split; [apply length_map|]. split.
  - apply Forall_map, List.Forall_forall.
    intros sku_data _. unfold batch_record.
    assert (Hr : exists e, batch_item ud extractOne sku_data marketplace
                             (Down msg) = Raise e).
    { unfold batch_item, dict_item.
      destruct (sku_data !! "sku") as [v|]; [|by eexists].
      cbn [mbind result_bind].
      assert (Hm : exists e, map_sku ud extractOne v marketplace (Down msg)
                             = Raise e).
      { destruct v; try (unfold map_sku; destruct (truthy _); by eexists).
        by eexists. }
      destruct Hm as [e ->]. by eexists. }
    destruct Hr as [e ->].
    destruct (failure_record_lookup sku_data e) as (_ & H2 & H3 & H4).
    cbv zeta. rewrite H2, H3, H4. eauto.
  - intros sku_data s Hs. unfold batch_record, batch_item, dict_item.
    rewrite Hs. cbn [mbind result_bind]. rewrite Hstr. reflexivity.
Qed.

(** X20.  An item without a [sku] key, or whose [sku] is [None], a [bool],
    an [int] or a [float], never maps: on every session its record is the
    failure record, with the item's [sku] ([None] when missing) as
    [original_sku]; the error text of a missing key is ['sku']. *)
Theorem item_without_str_sku_fails (ud : UnicodeData)
    (extractOne : list N -> list (list N) -> option (list N * Z))
    (marketplace : list N) (db : Session) (sku_data : gmap string pyval) :
  sku_data !! "sku" = None
  \/ (exists v, sku_data !! "sku" = Some v /\ none_or_number v = true) ->
  exists e,
    batch_record ud extractOne marketplace db sku_data
    = failure_record sku_data e
    /\ failure_record sku_data e !! "original_sku"
       = Some (dict_get sku_data "sku")
    /\ (sku_data !! "sku" = None -> exn_str e = pystr "'sku'").
Proof.
  intros Hno. unfold batch_record, batch_item, dict_item.
  destruct Hno as [Hnone|(v & Hv & Hnum)].
  - rewrite Hnone. cbn [mbind result_bind]. eexists. split; [reflexivity|].
    split; [reflexivity|]. reflexivity.
  - rewrite Hv. cbn [mbind result_bind].
    destruct (map_sku_not_str ud extractOne v marketplace db) as [e ->].
    { intros s ->. discriminate Hnum. }
    cbn [mbind result_bind]. exists e. split; [reflexivity|].
    split; [reflexivity|]. intros Hnone. discriminate Hnone.
Qed.

Lemma item_without_str_sku_fails_witness :
  exists e,
    batch_record ucd_excerpt no_fuzzy (pystr "amazon") one_widget
      {[ "sku" := PyInt 0; "row" := PyInt 2 ]}
    = failure_record {[ "sku" := PyInt 0; "row" := PyInt 2 ]} e
    /\ failure_record {[ "sku" := PyInt 0; "row" := PyInt 2 ]} e
         !! "original_sku" = Some (PyInt 0)
    /\ (({[ "sku" := PyInt 0; "row" := PyInt 2 ]} : gmap string pyval)
          !! "sku" = None -> exn_str e = pystr "'sku'").
Proof.
  destruct (item_without_str_sku_fails ucd_excerpt no_fuzzy (pystr "amazon")
              one_widget {[ "sku" := PyInt 0; "row" := PyInt 2 ]})
    as (e & H1 & H2 & H3).
  - right. exists (PyInt 0). split; reflexivity.
  - exists e. split; [exact H1|]. split; [exact H2|exact H3].
Defined.

(** ** More on the hash *)

Lemma spec_hash_step_mod h c :
  spec_hash_step (h mod 2 ^ 32) c = spec_hash_step h c.
Proof.
  unfold spec_hash_step.
  rewrite <- Z.add_mod_idemp_l, Z.mul_mod_idemp_l by lia.
  by rewrite Z.add_mod_idemp_l by lia.
Qed.

(** The hash from any start is the one from 0 shifted by the start. *)
Lemma spec_fold_shift text : forall h,
  (fold_left spec_hash_step text h mod 2 ^ 32
   = (h * 31 ^ Z.of_nat (length text) + fold_left spec_hash_step text 0)
     mod 2 ^ 32)%Z.
Proof.
  induction text as [|c text IH]; intros h.
  { simpl. f_equal. lia. }
  cbn [fold_left length]. rewrite (IH (spec_hash_step h c)).
  rewrite <- (Z.add_mod_idemp_r _ (fold_left _ _ (spec_hash_step 0 c))) by lia.
  rewrite (IH (spec_hash_step 0 c)).
  rewrite Z.add_mod_idemp_r by lia.
  unfold spec_hash_step.
  rewrite Nat2Z.inj_succ, Z.pow_succ_r by lia.
  rewrite <- Z.add_mod_idemp_l, Z.mul_mod_idemp_l by lia.
  rewrite Z.add_mod_idemp_l by lia.
  symmetry.
  rewrite Z.add_assoc.
  rewrite <- Z.add_mod_idemp_l by lia.
  rewrite <- (Z.add_mod_idemp_r _ (_ mod _ * _)) by lia.
  rewrite Z.mul_mod_idemp_l by lia.
  rewrite Z.add_mod_idemp_r, Z.add_mod_idemp_l by lia.
  f_equal. lia.
Qed.

Lemma spec_rolling_hash_app s t :
  spec_rolling_hash (s ++ t)
  = ((spec_rolling_hash s * 31 ^ Z.of_nat (length t) + spec_rolling_hash t)
     mod 2 ^ 32)%Z.
Proof.
  rewrite <- (Z.mod_small (spec_rolling_hash (s ++ t)) (2 ^ 32))
    by apply spec_rolling_hash_range.
  unfold spec_rolling_hash. rewrite fold_left_app. apply spec_fold_shift.
Qed.

(** X21.  The hash of a concatenation is determined by the hashes of the
    two parts and the length of the second: it is
    [hash(s) * 31^len(t) + hash(t)] wrapped to 32 bits. *)
Theorem rolling_hash_of_concatenation (s t : list N) :
  rolling_hash (s ++ t)
  = ((rolling_hash s * 31 ^ Z.of_nat (length t) + rolling_hash t)
     mod 2 ^ 32)%Z.
Proof. rewrite !rolling_hash_spec. apply spec_rolling_hash_app. Qed.

(** X22.  The synthesized master SKU is not injective: when two pairs of
    characters weigh the same ([31*a + b = 31*c + d], as for [AP] and
    [B1]), mapped SKUs that differ only in that pair are given the same
    master SKU, in every marketplace. *)
Theorem generate_msku_collides (ud : UnicodeData)
    (before after marketplace : list N) (a b c d : N) :
  (31 * a + b = 31 * c + d)%N ->
  _generate_msku ud (before ++ [a; b] ++ after) marketplace None
  = _generate_msku ud (before ++ [c; d] ++ after) marketplace None.
Proof.
  intros Heq. unfold _generate_msku, _simple_hash. cbv zeta.
  assert (Hpair : spec_rolling_hash [a; b] = spec_rolling_hash [c; d]).
  { unfold spec_rolling_hash, spec_hash_step. cbn [fold_left].
    change (0 * 31)%Z with 0%Z. rewrite !Z.add_0_l.
    rewrite <- (Z.add_mod_idemp_l (_ * 31) (Z.of_N b)) by lia.
    rewrite <- (Z.add_mod_idemp_l (_ * 31) (Z.of_N d)) by lia.
    rewrite !Z.mul_mod_idemp_l by lia.
    rewrite !Z.add_mod_idemp_l by lia. f_equal. lia. }
  assert (Hhash : rolling_hash (before ++ [a; b] ++ after)
                  = rolling_hash (before ++ [c; d] ++ after)).
  { rewrite !rolling_hash_spec, !app_assoc.
    rewrite !(spec_rolling_hash_app (_ ++ _) after).
    rewrite !(spec_rolling_hash_app before), Hpair. reflexivity. }
  by rewrite Hhash.
Qed.

Lemma generate_msku_collides_witness :
  _generate_msku ucd_excerpt (pystr "AMZ-AP77") (pystr "amazon") None
  = _generate_msku ucd_excerpt (pystr "AMZ-B177") (pystr "amazon") None.
Proof.
  apply (generate_msku_collides ucd_excerpt (pystr "AMZ-") (pystr "77")
           (pystr "amazon") 65 80 66 49).
  reflexivity.
Defined.

(** ** Combo SKUs *)

Example combo_of_two :
  process_combo_sku ucd_excerpt (pystr "AB-1234,CD-56789")
  = [pystr "AB-1234"; pystr "CD-56789"].
Proof. reflexivity. Qed.

Example combo_with_a_space_is_one_piece :
  process_combo_sku ucd_excerpt (pystr "AB-1234, CD-5678")
  = [pystr "AB-1234, CD-5678"].
Proof. reflexivity. Qed.

Example split_keeps_empty_pieces :
  split_on comma (pystr "a,,b,") = [pystr "a"; []; pystr "b"; []].
Proof. reflexivity. Qed.

(** A match of [r1r2] splits into a match of [r1] and a match of [r2]. *)
Lemma fullmatch_Seq_split s : forall r1 r2,
  fullmatch (Seq r1 r2) s = true ->
  exists s1 s2, s = s1 ++ s2
                /\ fullmatch r1 s1 = true /\ fullmatch r2 s2 = true.
Proof.
  induction s as [|c s IH]; intros r1 r2 Hm.
  { apply andb_true_iff in Hm as [H1 H2]. by exists [], []. }
  cbn [fullmatch deriv] in Hm.
  assert (Hcases : fullmatch (Seq (deriv c r1) r2) s = true
                   \/ (nullable r1 = true /\ fullmatch (deriv c r2) s = true)).
  { destruct (nullable r1); [|by left].
    rewrite fullmatch_Alt in Hm. apply orb_true_iff in Hm as [?|?]; auto. }
  destruct Hcases as [H|[Hn H]].
  - destruct (IH _ _ H) as (s1 & s2 & -> & H1 & H2).
    by exists (c :: s1), s2.
  - by exists [], (c :: s).
Qed.

(** A match of [r*] is a sequence of matches of [r]. *)
Lemma fullmatch_Star_split r s :
  fullmatch (Star r) s = true ->
  exists pieces, s = concat pieces
                 /\ Forall (fun piece => fullmatch r piece = true) pieces.
Proof.
  remember (length s) as n eqn:Hn. revert s Hn.
  induction n as [n IH] using lt_wf_ind. intros s Hn Hm.
  destruct s as [|c s]; [by exists []|].
  cbn [fullmatch deriv] in Hm.
  destruct (fullmatch_Seq_split _ _ _ Hm) as (s1 & s2 & -> & H1 & H2).
  destruct (IH (length s2)) with (s := s2) as (pieces & -> & Hall);
    [subst n; cbn [length]; rewrite length_app; lia | done | done |].
  exists ((c :: s1) :: pieces). split; [reflexivity|].
  constructor; [exact H1 | exact Hall].
Qed.

Lemma fullmatch_Cls p s :
  fullmatch (Cls p) s = true -> exists c, s = [c] /\ p c = true.
Proof.
  destruct s as [|c [|c' s]]; cbn [fullmatch deriv nullable]; [done| |].
  - destruct (p c) eqn:Hc; [|done]. by exists c.
  - destruct (p c); cbn [deriv]; by rewrite fullmatch_Void.
Qed.

Section ComboProps.
Variable ud : UnicodeData.
Hypothesis digits_not_space :
  forall c, py_isdecimal ud c = true -> py_isspace ud c = false.


Lemma upper_az_plain c : is_upper_az c = true -> plain ud c.
Proof.
  intros Hc.
  assert (Ha : is_ascii c = true).
  { apply sku_char_ascii. unfold sku_char. by rewrite Hc. }
  pose proof (ascii_cases
    (fun c => implb (is_upper_az c)
                (negb (c =? comma)%N && negb (ascii_isspace c)))
    eq_refl c Ha) as H.
  cbv beta in H. rewrite Hc in H. cbn [implb] in H.
  apply andb_true_iff in H as [H1%negb_true_iff%N.eqb_neq H2%negb_true_iff].
  split; [done|]. unfold py_isspace. by rewrite Ha.
Qed.

Lemma decimal_plain c : py_isdecimal ud c = true -> plain ud c.
Proof.
  intros Hc. split; [|by apply digits_not_space].
  intros ->. discriminate Hc.
Qed.

Lemma hyphen_plain : plain ud hyphen.
Proof. split; [discriminate | reflexivity]. Qed.

Lemma standard_plain s :
  fullmatch (re_standard ud) s = true -> Forall (plain ud) s /\ s <> [].
Proof.
  intros Hm. unfold re_standard in Hm.
  destruct (fullmatch_Seq_split _ _ _ Hm) as (letters & rest & -> & Hl & Hr).
  destruct (fullmatch_Seq_split _ _ _ Hr) as (h & digits & -> & Hh & Hd).
  apply fullmatch_Cls in Hh as (c & -> & Hc%N.eqb_eq). subst c.
  apply fullmatch_Rep_Cls_Forall in Hl as [Hl Hlen]; [|lia].
  apply fullmatch_Rep_Cls_Forall in Hd as [Hd _]; [|lia].
  split; [|destruct letters; [cbn [length] in Hlen; lia | done]].
  apply Forall_app. split.
  - eapply Forall_impl; [exact Hl|]. apply upper_az_plain.
  - constructor; [apply hyphen_plain|].
    eapply Forall_impl; [exact Hd|]. apply decimal_plain.
Qed.

Lemma split_on_plain s :
  Forall (fun c => c <> comma) s -> split_on comma s = [s].
Proof.
  induction 1 as [|c s Hc _ IH]; [reflexivity|].
  cbn [split_on]. apply N.eqb_neq in Hc as ->. by rewrite IH.
Qed.

Lemma split_on_app s rest :
  Forall (fun c => c <> comma) s ->
  split_on comma (s ++ comma :: rest) = s :: split_on comma rest.
Proof.
  induction 1 as [|c s Hc _ IH].
  - cbn [app split_on]. by rewrite N.eqb_refl.
  - cbn [app split_on]. apply N.eqb_neq in Hc as ->. by rewrite IH.
Qed.

(** Splitting undoes joining when no piece holds a comma. *)
Lemma split_on_join pieces :
  pieces <> [] ->
  Forall (Forall (fun c => c <> comma)) pieces ->
  split_on comma (join_with comma pieces) = pieces.
Proof.
  induction pieces as [|piece [|q qs] IH]; intros Hne Hall; [done| |].
  - inversion Hall; subst. by apply split_on_plain.
  - inversion Hall as [|? ? Hp Hrest]; subst.
    change (join_with comma (piece :: q :: qs))
      with (piece ++ comma :: join_with comma (q :: qs)).
    by rewrite split_on_app, IH.
Qed.

Lemma plain_no_comma pieces :
  Forall (Forall (plain ud)) pieces ->
  Forall (Forall (fun c => c <> comma)) pieces.
Proof.
  intros H. eapply Forall_impl; [exact H|]. intros p Hp.
  eapply Forall_impl; [exact Hp|]. by intros c [? _].
Qed.

Lemma map_strip_plain pieces :
  Forall (Forall (plain ud)) pieces ->
  List.map (strip (py_isspace ud)) pieces = pieces.
Proof.
  induction 1 as [|p ps Hp _ IH]; [done|].
  cbn [List.map]. rewrite IH. f_equal.
  apply strip_none. eapply Forall_impl; [exact Hp|]. by intros c [_ ?].
Qed.

Lemma join_with_snoc pieces last tail :
  join_with comma (pieces ++ [last ++ tail])
  = join_with comma (pieces ++ [last]) ++ tail.
Proof.
  induction pieces as [|q qs IH]; [reflexivity|].
  destruct qs as [|q' qs'].
  - cbn [app join_with]. apply (List.app_assoc q (comma :: last) tail).
  - change (join_with comma ((q :: q' :: qs') ++ [last ++ tail]))
      with (q ++ comma :: join_with comma ((q' :: qs') ++ [last ++ tail])).
    rewrite IH. apply (List.app_assoc q (comma :: _) tail).
Qed.

(** A match of the combo pattern is a comma-separated list of standard
    SKUs. *)
Lemma combo_pieces body :
  fullmatch (Seq (re_standard ud) (Star (Seq (Chr comma) (re_standard ud))))
    body = true ->
  exists piece pieces,
    body = join_with comma (piece :: pieces)
    /\ Forall (fun p => fullmatch (re_standard ud) p = true) (piece :: pieces).
Proof.
  intros Hm.
  destruct (fullmatch_Seq_split _ _ _ Hm) as (piece & rest & -> & Hp & Hr).
  apply fullmatch_Star_split in Hr as (groups & -> & Hg).
  clear Hm. revert piece Hp.
  induction Hg as [|g gs Hg _ IH]; intros piece Hp.
  { exists piece, []. cbn [concat join_with]. rewrite app_nil_r. by repeat constructor. }
  destruct (fullmatch_Seq_split _ _ _ Hg) as (c & q & -> & Hc & Hq).
  apply fullmatch_Cls in Hc as (c' & -> & Hc'%N.eqb_eq). subst c'.
  destruct (IH q Hq) as (q0 & qs & Hjoin & Hall).
  exists piece, (q0 :: qs). split; [|by constructor].
  cbn [concat]. rewrite <- app_assoc. cbn [app].
  change (join_with comma (piece :: q0 :: qs))
    with (piece ++ comma :: join_with comma (q0 :: qs)).
  by rewrite <- Hjoin.
Qed.

Lemma strip_plain_newline s :
  Forall (plain ud) s -> s <> [] -> strip (py_isspace ud) (s ++ [newline]) = s.
Proof.
  intros H Hne.
  assert (Hs : Forall (fun c => py_isspace ud c = false) s)
    by (eapply Forall_impl; [exact H|]; by intros c [_ ?]).
  unfold strip. rewrite lstrip_fixed.
  2:{ destruct s as [|c s']; [done|]. by inversion Hs. }
  unfold rstrip. rewrite rev_app_distr. cbn [rev app lstrip].
  change (py_isspace ud newline) with true. cbv iota.
  rewrite lstrip_none by (by apply Forall_rev).
  apply rev_involutive.
Qed.

Lemma combo_result combo :
  let pieces := process_combo_sku ud combo in
  (pieces = [combo]
   \/ Forall (fun p => fullmatch (re_standard ud) p = true) pieces)
  /\ (join_with comma pieces = combo
      \/ join_with comma pieces ++ [newline] = combo).
Proof.
  cbv zeta. unfold process_combo_sku.
  change (default Void (assoc (pystr "combo") (patterns ud)))
    with (Seq (re_standard ud) (Star (Seq (Chr comma) (re_standard ud)))).
  destruct (match_to_end _ combo) eqn:Hm; [|by split; left].
  destruct (match_to_end_body _ _ Hm) as (body & Hbody & Hfull).
  destruct (combo_pieces body Hfull) as (piece & pieces & -> & Hall).
  assert (Hplain : Forall (Forall (plain ud)) (piece :: pieces)).
  { eapply Forall_impl; [exact Hall|]. intros p Hp. by apply standard_plain. }
  destruct Hbody as [->| ->].
  - rewrite split_on_join by (done || by apply plain_no_comma).
    rewrite map_strip_plain by done. split; [by right | by left].
  - destruct (exists_last (l := piece :: pieces)) as (init & last & Heq); [done|].
    rewrite Heq in *. clear Heq piece pieces.
    apply Forall_app in Hall as [Hinit Hlast].
    apply Forall_app in Hplain as [Pinit Plast].
    inversion Hlast as [|? ? Hl _]; subst. inversion Plast as [|? ? Pl _]; subst.
    rewrite <- join_with_snoc.
    rewrite split_on_join.
    2:{ by destruct init. }
    2:{ apply Forall_app. split; [by apply plain_no_comma|].
        repeat constructor. apply Forall_app. split.
        - eapply Forall_impl; [exact Pl|]. by intros c [? _].
        - repeat constructor. discriminate. }
    rewrite List.map_app. cbn [List.map].
    rewrite strip_plain_newline by (done || by apply standard_plain).
    rewrite map_strip_plain by done. split.
    + right. apply Forall_app. split; [done | by repeat constructor].
    + right. by rewrite join_with_snoc.
Qed.

End ComboProps.

(** X23.  [process_combo_sku] loses nothing but a final newline: joining
    the pieces it returns with commas gives the input back, or the input
    without its final newline; and either the input is returned as the
    only piece, or every piece is a standard SKU
    ([[A-Z]{2,4}-\d{4,8}]).  (Decimal digits are no whitespace in
    Unicode.) *)
Theorem process_combo_sku_pieces (ud : UnicodeData) (combo_sku : list N) :
  (forall c, py_isdecimal ud c = true -> py_isspace ud c = false) ->
  let pieces := process_combo_sku ud combo_sku in
  (pieces = [combo_sku]
   \/ Forall (fun p => fullmatch (re_standard ud) p = true) pieces)
  /\ (join_with comma pieces = combo_sku
      \/ join_with comma pieces ++ [newline] = combo_sku).
Proof. intros Hd. by apply combo_result. Qed.

Lemma process_combo_sku_pieces_witness :
  let pieces :=
    process_combo_sku ucd_excerpt (pystr "AB-1234,CD-56789" ++ [newline]) in
  (pieces = [pystr "AB-1234,CD-56789" ++ [newline]]
   \/ Forall (fun p => fullmatch (re_standard ucd_excerpt) p = true) pieces)
  /\ (join_with comma pieces = pystr "AB-1234,CD-56789" ++ [newline]
      \/ join_with comma pieces ++ [newline]
         = pystr "AB-1234,CD-56789" ++ [newline]).
Proof.
  apply (process_combo_sku_pieces ucd_excerpt
           (pystr "AB-1234,CD-56789" ++ [newline])).
  intros c. unfold py_isdecimal, py_isspace, ucd_excerpt. cbn [ud_isdecimal].
  destruct (is_ascii c) eqn:Ha; [|discriminate].
  intros Hd.
  pose proof (ascii_cases
    (fun c => implb (is_digit c) (negb (ascii_isspace c))) eq_refl c Ha) as H.
  cbv beta in H. rewrite Hd in H. by apply negb_true_iff in H.
Defined.

(** ** Validation without a marketplace *)

(** X24.  Without a marketplace [validate_sku] accepts a SKU exactly when
    it accepts it under one of the six pattern names (the four
    marketplaces, [standard] and [combo]); a marketplace that names no
    pattern, the empty string included, is handled as no marketplace. *)
Theorem validate_sku_without_marketplace (ud : UnicodeData) (sku : list N) :
  validate_sku ud sku None
  = existsb (fun name => validate_sku ud sku (Some name))
      (List.map fst (patterns ud))
  /\ forall marketplace,
       assoc marketplace (patterns ud) = None ->
       validate_sku ud sku (Some marketplace) = validate_sku ud sku None.
Proof.
  split.
  - cbn [List.map patterns fst existsb]. rewrite !validate_sku_unfold.
    destruct (strip (py_isspace ud) sku) as [|c t]; reflexivity.
  - intros marketplace Hnone. rewrite !validate_sku_unfold.
    destruct (strip (py_isspace ud) sku) as [|c t]; [reflexivity|].
    destruct marketplace as [|m ms]; [reflexivity|]. by rewrite Hnone.
Qed.

(** ** The normalizer and the case of letters *)

Section CaseProps.
Variable ud : UnicodeData.

Lemma ascii_upper_classes c :
  is_ascii c = true ->
  is_quote (ascii_upper c) = is_quote c
  /\ word_or_hyphen ud (ascii_upper c) = word_or_hyphen ud c.
Proof.
  intros Hc.
  pose proof (ascii_cases
    (fun c => eqb (is_quote (ascii_upper c)) (is_quote c)
              && eqb (word_or_hyphen ud (ascii_upper c)) (word_or_hyphen ud c))
    eq_refl c Hc) as H.
  cbv beta in H. apply andb_true_iff in H as [H1%eqb_prop H2%eqb_prop]. done.
Qed.

Lemma lstrip_map_invariant (p : N -> bool) s :
  (forall c, is_ascii c = true -> p (ascii_upper c) = p c) ->
  all_ascii s = true ->
  lstrip p (List.map ascii_upper s) = List.map ascii_upper (lstrip p s).
Proof.
  intros Hp. induction s as [|c s IH]; simpl; [done|].
  intros [Hc Hs]%andb_true_iff. rewrite (Hp c Hc).
  destruct (p c); [by apply IH | done].
Qed.

Lemma strip_map_invariant (p : N -> bool) s :
  (forall c, is_ascii c = true -> p (ascii_upper c) = p c) ->
  all_ascii s = true ->
  strip p (List.map ascii_upper s) = List.map ascii_upper (strip p s).
Proof.
  intros Hp Hs. unfold strip, rstrip.
  rewrite (lstrip_map_invariant p s Hp Hs), <- List.map_rev,
    lstrip_map_invariant.
  - by rewrite List.map_rev.
  - exact Hp.
  - rewrite all_ascii_rev, all_ascii_Forall. apply lstrip_Forall.
    by apply all_ascii_Forall.
Qed.

Lemma sub_space_runs_map_upper s : forall b,
  all_ascii s = true ->
  sub_space_runs ud b (List.map ascii_upper s)
  = List.map ascii_upper (sub_space_runs ud b s).
Proof.
  induction s as [|c s IH]; intros b; simpl; [done|].
  intros [Hc Hs]%andb_true_iff.
  destruct (ascii_upper_facts ud c Hc) as (_ & _ & -> & _).
  destruct (py_isspace ud c); [destruct b|]; simpl; by rewrite IH.
Qed.

Lemma remove_special_map_upper s :
  all_ascii s = true ->
  remove_special ud (List.map ascii_upper s)
  = List.map ascii_upper (remove_special ud s).
Proof.
  unfold remove_special.
  induction s as [|c s IH]; simpl; [done|].
  intros [Hc Hs]%andb_true_iff.
  destruct (ascii_upper_classes c Hc) as [_ ->].
  destruct (word_or_hyphen ud c); simpl; by rewrite IH.
Qed.

End CaseProps.

(** X25.  The normalizer does not tell the case of ASCII letters:
    upper-casing an ASCII SKU before it is normalized changes nothing. *)
Theorem clean_sku_ignores_case (ud : UnicodeData) (raw : list N) :
  all_ascii raw = true ->
  _clean_sku ud (str_upper ud raw) = _clean_sku ud raw.
Proof.
  intros Ha. rewrite (str_upper_ascii ud raw Ha).
  destruct raw as [|c0 s0]; [reflexivity|].
  set (raw := c0 :: s0) in *.
  change (List.map ascii_upper raw)
    with (ascii_upper c0 :: List.map ascii_upper s0) at 1.
  unfold _clean_sku. cbv zeta. fold raw.
  change (ascii_upper c0 :: List.map ascii_upper s0)
    with (List.map ascii_upper raw).
  assert (H1 : all_ascii (strip (py_isspace ud) raw) = true)
    by (by apply all_ascii_strip).
  assert (H2 : all_ascii (strip is_quote (strip (py_isspace ud) raw)) = true)
    by (by apply all_ascii_strip).
  assert (H3 : all_ascii (sub_space_runs ud false
                            (strip is_quote (strip (py_isspace ud) raw))) = true).
  { apply all_ascii_Forall, sub_space_runs_Forall; [reflexivity|].
    by apply all_ascii_Forall. }
  assert (H4 : all_ascii (remove_special ud
                            (sub_space_runs ud false
                               (strip is_quote (strip (py_isspace ud) raw))))
               = true).
  { apply all_ascii_Forall, List.Forall_forall. intros c Hc.
    apply List.filter_In in Hc as [Hc _].
    apply all_ascii_Forall in H3. rewrite List.Forall_forall in H3. by apply H3. }
  rewrite strip_map_upper by done.
  rewrite strip_map_invariant;
    [|intros c Hc; by destruct (ascii_upper_classes ud c Hc) | done].
  rewrite sub_space_runs_map_upper by done.
  rewrite remove_special_map_upper by done.
  rewrite !str_upper_ascii;
    [|done | by apply (map_upper_idempotent ud)].
  by apply (map_upper_idempotent ud).
Qed.

Lemma clean_sku_ignores_case_witness :
  _clean_sku ucd_excerpt (str_upper ucd_excerpt (pystr " 'ab 12_x' "))
  = _clean_sku ucd_excerpt (pystr " 'ab 12_x' ").
Proof.
  apply (clean_sku_ignores_case ucd_excerpt (pystr " 'ab 12_x' ")).
  reflexivity.
Defined.

(** ** The fuzzy match and the working session *)

(** X26.  The fuzzy match tries the SKUs before the master SKUs: when the
    best SKU reaches the threshold, the product returned is the first of
    the catalog with that SKU, whatever the master SKUs are. *)
Theorem fuzzy_match_prefers_sku
    (extractOne : list N -> list (list N) -> option (list N * Z))
    (sku : list N) (products : list Product)
    (listings : list MarketplaceListing) (threshold : Z)
    (choice : list N) (score : Z) :
  picks_a_choice extractOne ->
  extractOne sku (List.filter nonempty (List.map p_sku products))
    = Some (choice, score) ->
  (threshold <= score)%Z ->
  exists p,
    _fuzzy_match_product extractOne sku (Live products listings) threshold
      = Ok (Some p)
    /\ p_sku p = choice
    /\ List.find (fun p => bool_decide (p_sku p = choice)) products = Some p.
Proof.
  intros Hpick Hex Hscore. unfold _fuzzy_match_product.
  cbn [query_products mbind result_bind].
  pose proof (Hpick _ _ _ _ Hex) as Hin.
  apply List.filter_In in Hin as [Hin _].
  apply List.in_map_iff in Hin as (p0 & Hp0 & Hin).
  destruct products as [|q qs]; [done|].
  set (products := q :: qs) in *. cbv zeta. rewrite Hex.
  unfold accepted. destruct (Z.leb_spec threshold score); [|lia].
  unfold next_product.
  destruct (find_In (fun p => bool_decide (p_sku p = choice)) products p0 Hin)
    as [p Hp]; [by apply bool_decide_eq_true|].
  rewrite Hp. exists p. split; [reflexivity|]. split; [|reflexivity].
  by apply find_some in Hp as [_ Hs%bool_decide_eq_true].
Qed.

Lemma fuzzy_match_prefers_sku_witness :
  exists p,
    _fuzzy_match_product first_choice_93 (pystr "AMZ-B001122335")
      (Live [widget] []) 80 = Ok (Some p)
    /\ p_sku p = pystr "AMZ-B001122334"
    /\ List.find (fun p => bool_decide (p_sku p = pystr "AMZ-B001122334"))
         [widget] = Some p.
Proof.
  apply (fuzzy_match_prefers_sku first_choice_93 (pystr "AMZ-B001122335")
           [widget] [] 80 (pystr "AMZ-B001122334") 93).
  - intros query choices choice score. unfold first_choice_93.
    destruct choices as [|c cs]; [discriminate|].
    intros [= <- _]. by left.
  - reflexivity.
  - lia.
Defined.

(** X27.  On a working session, with a fuzzy matcher that returns one of
    its choices, [map_sku] returns a record for every string, the empty
    one included, and a batch item with a string [sku] gets that record
    updated with the item, never a failure record. *)
Theorem map_sku_returns_on_working_session (ud : UnicodeData)
    (extractOne : list N -> list (list N) -> option (list N * Z))
    (original_sku marketplace : list N)
    (products : list Product) (listings : list MarketplaceListing) :
  picks_a_choice extractOne ->
  exists r,
    map_sku ud extractOne (PyStr original_sku) marketplace
      (Live products listings) = Ok r
    /\ forall sku_data,
         sku_data !! "sku" = Some (PyStr original_sku) ->
         batch_record ud extractOne marketplace (Live products listings)
           sku_data = sku_data ∪ r.
Proof.
  intros Hpick. rewrite map_sku_str_eq. cbv zeta.
  destruct (find_existing_product_known extractOne
              (_apply_marketplace_rules ud (_clean_sku ud original_sku)
                 marketplace)
              marketplace products listings Hpick) as (existing & Hfind & _).
  rewrite Hfind. eexists. split; [reflexivity|].
  intros sku_data Hsku. unfold batch_record, batch_item, dict_item.
  rewrite Hsku. cbn [mbind result_bind].
  rewrite map_sku_str_eq. cbv zeta. rewrite Hfind. reflexivity.
Qed.

Lemma map_sku_returns_on_working_session_witness :
  exists r,
    map_sku ucd_excerpt first_choice_93 (PyStr []) (pystr "amazon")
      (Live [widget] [widget_listing]) = Ok r
    /\ forall sku_data,
         sku_data !! "sku" = Some (PyStr []) ->
         batch_record ucd_excerpt first_choice_93 (pystr "amazon")
           (Live [widget] [widget_listing]) sku_data = sku_data ∪ r.
Proof.
  apply (map_sku_returns_on_working_session ucd_excerpt first_choice_93).
  intros query choices choice score. unfold first_choice_93.
  destruct choices as [|c cs]; [discriminate|].
  intros [= <- _]. by left.
Defined.

(** ** The mapper of the desktop tool *)

Example desktop_direct_mapping :
  Desktop.map_sku_to_msku ucd_excerpt matches_all one_entry_mapper (pystr " A1 ")
  = Ok (Some (pystr "M1"), None).
Proof. reflexivity. Qed.

Example desktop_no_mapping :
  Desktop.map_sku_to_msku ucd_excerpt matches_all one_entry_mapper (pystr "A2")
  = Ok (None, Some (pystr "No mapping found for SKU: A2")).
Proof. reflexivity. Qed.

Lemma try_formats_finds_nothing re_match self sku : forall formats,
  Desktop.mapping_data self !! sku = None ->
  forall found,
    Desktop.try_formats re_match self formats sku = Ok found -> found = None.
Proof.
  induction formats as [|[pattern info] rest IH]; intros Hnone found.
  { by intros [= <-]. }
  cbn [Desktop.try_formats]. destruct (re_match pattern sku) as [[|]|e];
    cbn [mbind result_bind]; [| by apply IH | done].
  unfold Desktop._transform_sku. rewrite Hnone. by apply IH.
Qed.

(** X28.  The marketplace formats of the desktop mapper never change an
    answer: whenever [map_sku_to_msku] returns, the master SKU it gives is
    the direct entry of the stripped SKU in the mapping table (none for
    the empty SKU), and it comes with a message exactly when there is no
    master SKU.  Without formats it always returns. *)
Theorem map_sku_to_msku_is_direct_lookup (ud : UnicodeData)
    (re_match : list N -> list N -> result bool)
    (self : Desktop.SKUMapper) (sku : list N) :
  (forall msku message,
     Desktop.map_sku_to_msku ud re_match self sku = Ok (msku, message) ->
     msku = match sku with
            | [] => None
            | _ => Desktop.mapping_data self !! strip (py_isspace ud) sku
            end
     /\ (msku = None <-> is_Some message))
  /\ (Desktop.marketplace_formats self = [] ->
      exists r, Desktop.map_sku_to_msku ud re_match self sku = Ok r).
Proof.
  split.
  - intros msku message. unfold Desktop.map_sku_to_msku.
    destruct sku as [|c s]; [intros [= <- <-]; split; [done|]; split; eauto|].
    set (t := strip (py_isspace ud) (c :: s)).
    destruct (Desktop.mapping_data self !! t) as [m|] eqn:Hm.
    { intros [= <- <-]. split; [done|]. split; [done|]. by intros [? ?]. }
    destruct (Desktop.try_formats re_match self _ t) as [found|e] eqn:Hf;
      cbn [mbind result_bind]; [|done].
    apply (try_formats_finds_nothing re_match self t _ Hm) in Hf as ->.
    intros [= <- <-]. split; [done|]. split; eauto.
  - intros Hnil. unfold Desktop.map_sku_to_msku. rewrite Hnil.
    destruct sku as [|c s]; [by eexists|].
    destruct (Desktop.mapping_data self !! _); by eexists.
Qed.
